(** * merger.py: DICOM metadata merger

    A shallow embedding of [merger.py] and the properties of its output
    table.  The script walks a directory tree, reads the metadata of every
    [.dcm] file and writes one [;]-separated line per readable file.

    Python strings are modelled as [string], one 8-bit character per code
    point.  The libraries the script calls ([os], [json], [random],
    [pydicom], [logging]) are modelled by what the script observes of them;
    the file system is a state threaded through the script, the files and
    documents it only reads are an environment. *)

From Stdlib Require Import String Ascii List ZArith Lia Bool Arith.
Import ListNotations.
Open Scope string_scope.

(** ** Python exceptions and results *)

Inductive PyExn : Type :=
| ValueError
| TypeError
| AttributeError
| IndexError
| OverflowError
| FileNotFoundError
| FileExistsError
| IsADirectoryError
| NotADirectoryError
| InvalidDicomError.

(** The result of a pure call that may raise. *)
Inductive Res (A : Type) : Type :=
| Ok (a : A)
| Err (e : PyExn).
Arguments Ok {A} a.
Arguments Err {A} e.

Definition res_bind {A B} (r : Res A) (k : A -> Res B) : Res B :=
  match r with
  | Ok a => k a
  | Err e => Err e
  end.

(** [tuple(f(x) for x in l)]: the elements are computed from left to right
    and the first exception ends the construction. *)
Fixpoint res_map {A B} (f : A -> Res B) (l : list A) : Res (list B) :=
  match l with
  | [] => Ok []
  | x :: r => res_bind (f x) (fun y => res_bind (res_map f r) (fun ys => Ok (y :: ys)))
  end.

(** ** The methods of [str] the script uses *)

Module PyStr.

Definition code (c : ascii) : Z := Z.of_N (N_of_ascii c).

Definition between (lo hi : Z) (c : ascii) : bool :=
  ((lo <=? code c) && (code c <=? hi))%Z.

Fixpoint map_chars (f : ascii -> ascii) (s : string) : string :=
  match s with
  | EmptyString => EmptyString
  | String c r => String (f c) (map_chars f r)
  end.

Fixpoint count (c : ascii) (s : string) : nat :=
  match s with
  | EmptyString => 0
  | String d r => (if Ascii.eqb d c then 1 else 0) + count c r
  end.

Fixpoint mem (c : ascii) (chars : string) : bool :=
  match chars with
  | EmptyString => false
  | String d r => Ascii.eqb c d || mem c r
  end.

(** [s.lower()]: the upper-case letters of ASCII and of Latin-1 move to
    their lower-case forms, every other character stays. *)
Definition lower_char (c : ascii) : ascii :=
  if between 65 90 c then ascii_of_N (N_of_ascii c + 32)
  else if between 192 222 c && negb (code c =? 215)%Z
       then ascii_of_N (N_of_ascii c + 32)
       else c.

Definition lower (s : string) : string := map_chars lower_char s.

(** [s.endswith(suffix)] *)
Fixpoint endswith (s suffix : string) : bool :=
  String.eqb s suffix ||
  match s with
  | EmptyString => false
  | String _ r => endswith r suffix
  end.

(** [s.replace(old, new)] for one-character [old] and [new]. *)
Definition replace (old new : ascii) (s : string) : string :=
  map_chars (fun c => if Ascii.eqb c old then new else c) s.

(** [s.lstrip], [s.rstrip] and [s.strip] over a set of characters given
    as a predicate. *)
Fixpoint lstrip_by (p : ascii -> bool) (s : string) : string :=
  match s with
  | EmptyString => EmptyString
  | String c r => if p c then lstrip_by p r else s
  end.

Fixpoint rstrip_by (p : ascii -> bool) (s : string) : string :=
  match s with
  | EmptyString => EmptyString
  | String c r =>
      match rstrip_by p r with
      | EmptyString => if p c then EmptyString else String c EmptyString
      | r' => String c r'
      end
  end.

Definition strip_by (p : ascii -> bool) (s : string) : string :=
  rstrip_by p (lstrip_by p s).

(** [s.strip(chars)] *)
Definition strip (chars : string) (s : string) : string :=
  strip_by (fun c => mem c chars) s.

Definition rstrip (chars : string) (s : string) : string :=
  rstrip_by (fun c => mem c chars) s.

(** [s.split(sep)] for a one-character separator: never an empty list. *)
Fixpoint split (sep : ascii) (s : string) : list string :=
  match s with
  | EmptyString => [EmptyString]
  | String c r =>
      if Ascii.eqb c sep then EmptyString :: split sep r
      else match split sep r with
           | hd :: tl => String c hd :: tl
           | [] => [String c EmptyString]
           end
  end.

(** [sep.join(l)] *)
Definition join (sep : string) (l : list string) : string :=
  String.concat sep l.

(** The white space [int] skips at both ends of its argument: the six
    characters of C's [isspace], and the two spaces among the code points
    128 to 255 (NEL and the no-break space), which [int] first turns into
    a plain space.  The separators 28 to 31, white space for
    [str.isspace], are not skipped: [int] raises [ValueError] on them. *)
Definition isspace (c : ascii) : bool :=
  between 9 13 c || (code c =? 32)%Z || (code c =? 133)%Z || (code c =? 160)%Z.

Definition hex_digit (c : ascii) : option Z :=
  if between 48 57 c then Some (code c - 48)%Z
  else if between 97 102 c then Some (code c - 87)%Z
  else if between 65 70 c then Some (code c - 55)%Z
  else None.

(** The digit loop of [int(x, 16)]: hexadecimal digits with single
    underscores between them, no underscore at the end, at least one
    digit, and nothing else up to the end of the string. *)
Fixpoint scan_digits (prev_underscore : bool) (ndigits : nat) (acc : Z)
         (s : string) : option Z :=
  match s with
  | EmptyString =>
      if prev_underscore then None
      else match ndigits with O => None | S _ => Some acc end
  | String c r =>
      if Ascii.eqb c "_"
      then if prev_underscore then None else scan_digits true ndigits acc r
      else match hex_digit c with
           | Some d => scan_digits false (S ndigits) (16 * acc + d)%Z r
           | None => None
           end
  end.

(** The optional [0x] or [0X] prefix, after which one underscore is
    allowed. *)
Definition skip_prefix16 (s : string) : string :=
  match s with
  | String "0" (String x r) =>
      if Ascii.eqb x "x" || Ascii.eqb x "X"
      then match r with
           | String "_" r' => r'
           | _ => r
           end
      else s
  | _ => s
  end.

Definition unsigned16 (s : string) : option Z :=
  match skip_prefix16 s with
  | String "_" _ => None
  | body => scan_digits false 0 0%Z body
  end.

(** [int(x, 16)]: surrounding white space, an optional sign, an optional
    prefix, then the digits; [ValueError] otherwise. *)
Definition int16 (x : string) : Res Z :=
  let body := strip_by isspace x in
  let parsed :=
    match body with
    | String "+" r => unsigned16 r
    | String "-" r => option_map Z.opp (unsigned16 r)
    | _ => unsigned16 body
    end in
  match parsed with
  | Some z => Ok z
  | None => Err ValueError
  end.

End PyStr.

(** ** pydicom: tags, data elements and data sets *)

Module Pydicom.

(** [pydicom.tag.Tag(arg)] for a tuple of integers: a tuple of two
    integers of at most 16 bits each, packed into one integer. *)
Definition Tag (arg : list Z) : Res Z :=
  match arg with
  | [g; e] =>
      if ((g >? 65535) || (e >? 65535))%Z then Err OverflowError
      else let long_value := Z.lor (Z.shiftl g 16) e in
           if (long_value <? 0)%Z then Err ValueError else Ok long_value
  | _ => Err ValueError
  end.

(** The value of a data element as the script sees it: [None], or an
    object known through its [str()]. *)
Inductive PyValue : Type :=
| PyNone
| PyObj (display : string).

Definition str (v : PyValue) : string :=
  match v with
  | PyNone => "None"
  | PyObj s => s
  end.

(** An element of a data set: readable with a value, or one whose
    access raises. *)
Inductive DataElement : Type :=
| Element (value : PyValue)
| Unreadable (e : PyExn).

Definition Dataset : Type := list (Z * DataElement).

Definition keys (ds : Dataset) : list Z := map fst ds.

Fixpoint find (tag : Z) (ds : Dataset) : option DataElement :=
  match ds with
  | [] => None
  | (t, el) :: r => if (t =? tag)%Z then Some el else find tag r
  end.

(** [ds.get(tag, None)] followed by [.value] when an element came back:
    [Ok None] when the tag is absent. *)
Definition get_value (ds : Dataset) (tag : Z) : Res (option PyValue) :=
  match find tag ds with
  | None => Ok None
  | Some (Element v) => Ok (Some v)
  | Some (Unreadable e) => Err e
  end.

End Pydicom.

(** ** [convert_string_to_tag] *)

Definition convert_string_to_tag (tag_str : string) : Res Z :=
  res_bind (res_map PyStr.int16 (PyStr.split "," (PyStr.strip "()" tag_str)))
           Pydicom.Tag.

(** ** [os.path] on POSIX paths *)

Module OsPath.

Definition has_slash (p : string) : bool := PyStr.mem "/" p.

(** [p[:p.rfind('/') + 1]] and [p[p.rfind('/') + 1:]] *)
Fixpoint head_part (p : string) : string :=
  match p with
  | EmptyString => EmptyString
  | String c r =>
      if has_slash r then String c (head_part r)
      else if Ascii.eqb c "/" then String c EmptyString else EmptyString
  end.

Fixpoint basename (p : string) : string :=
  match p with
  | EmptyString => EmptyString
  | String c r =>
      if has_slash r then basename r
      else if Ascii.eqb c "/" then r else p
  end.

(** [os.path.dirname]: the head keeps its slashes only when it is made
    of slashes alone. *)
Definition dirname (p : string) : string :=
  let head := head_part p in
  match PyStr.rstrip "/" head with
  | EmptyString => head
  | stripped => stripped
  end.

(** [os.path.join(a, b)] *)
Definition join (a b : string) : string :=
  if String.prefix "/" b then b
  else if String.eqb a "" || PyStr.endswith a "/" then a ++ b
  else a ++ "/" ++ b.

Fixpoint slashes (n : nat) : string :=
  match n with
  | O => EmptyString
  | S k => String "/" (slashes k)
  end.

(** [os.path.normpath] *)
Definition normpath (path : string) : string :=
  if String.eqb path "" then "."
  else
    let initial_slashes :=
      if String.prefix "/" path
      then if String.prefix "//" path && negb (String.prefix "///" path)
           then 2 else 1
      else 0 in
    let step (new_comps : list string) (comp : string) : list string :=
      if String.eqb comp "" || String.eqb comp "." then new_comps
      else if negb (String.eqb comp "..")
              || (Nat.eqb initial_slashes 0 && Nat.eqb (List.length new_comps) 0)
              || String.eqb (last new_comps "") ".."
           then (new_comps ++ [comp])%list
           else removelast new_comps in
    let comps := fold_left step (PyStr.split "/" path) [] in
    let joined := slashes initial_slashes ++ PyStr.join "/" comps in
    if String.eqb joined "" then "." else joined.

End OsPath.

(** ** Dictionaries with string keys, in insertion order *)

Definition dict : Type := list (string * string).

Fixpoint dict_set (k v : string) (d : dict) : dict :=
  match d with
  | [] => [(k, v)]
  | (k', v') :: r =>
      if String.eqb k' k then (k', v) :: r else (k', v') :: dict_set k v r
  end.

Fixpoint dict_get (k : string) (d : dict) (default : string) : string :=
  match d with
  | [] => default
  | (k', v) :: r => if String.eqb k' k then v else dict_get k r default
  end.

Definition dict_keys (d : dict) : list string := map fst d.

(** ** [json.load] of the tag document *)

(** The top-level value of a JSON document.  The members of an object keep
    their text; the script never looks at them. *)
Inductive JsonDoc : Type :=
| JsonObject (members : list (string * string))
| JsonArray (n : nat)
| JsonString (s : string)
| JsonScalar.

(** What [selected_tags.json] is at the start of the run. *)
Inductive TagsFile : Type :=
| TagsAbsent
| TagsUnreadable (e : PyExn)
| TagsMalformed
| TagsDocument (doc : JsonDoc).

(** The Python object [json.load] returns. *)
Inductive PyJson : Type :=
| PyDict (d : dict)
| PyList (n : nat)
| PyString (s : string)
| PyScalar.

(** A repeated member keeps its first position and its last value. *)
Definition json_load (doc : JsonDoc) : PyJson :=
  match doc with
  | JsonObject members =>
      PyDict (fold_left (fun d kv => dict_set (fst kv) (snd kv) d) members [])
  | JsonArray n => PyList n
  | JsonString s => PyString s
  | JsonScalar => PyScalar
  end.

(** [len(selected_tags)] and [selected_tags.keys()] *)
Definition py_len (j : PyJson) : Res nat :=
  match j with
  | PyDict d => Ok (List.length d)
  | PyList n => Ok n
  | PyString s => Ok (String.length s)
  | PyScalar => Err TypeError
  end.

Definition py_keys (j : PyJson) : Res (list string) :=
  match j with
  | PyDict d => Ok (dict_keys d)
  | _ => Err AttributeError
  end.

(** ** The log *)

Inductive Level : Type := DEBUG | INFO | WARNING | ERROR.

(** One constructor per logging call of the script, with the data its
    message is formatted from. *)
Inductive Msg : Type :=
| MsgAppendingCsv (output_dir : string)
| MsgSharedFolderPath (path_shared_folder : string)
| MsgSharedFolder (shared_folder : string)
| MsgOutputDirectory (output_dir : string)
| MsgFolderMissing (path_shared_folder : string)
| MsgListing
| MsgNoDicomFiles
| MsgFound (n : nat)
| MsgSample (files : list string)
| MsgTagsMissing (tags_path : string)
| MsgLoadedTags (n : nat)
| MsgJsonError (tags_path : string)
| MsgSelectedTags (selected_tags : PyJson)
| MsgMerging
| MsgCreating (output_dir : string)
| MsgHeaderWritten
| MsgHeader (columns : list string)
| MsgProcessing
| MsgFirstKeys (ds_key : Z) (selected_tag : string)
| MsgTagFailed (tag_str : string) (e : PyExn)
| MsgExtracted (file : string) (data : dict)
| MsgProcessed (file : string)
| MsgReadError (file : string) (e : PyExn)
| MsgStarting
| MsgAnErrorOccurred (e : PyExn)
| MsgCompletedSuccessfully
| MsgEncounteredError
| MsgCompletedIn (elapsed : Z).

(** ** The world the script runs in *)

(** What the script changes: the directories, the files with their
    contents, and the log.

    [log] holds the records handed to the logger, in order.  The handlers
    that lines 36 to 56 set up write them to the log file and to the
    console; the log file is not one of [fs_files], its content is [log].

    A path names a directory or a file by its spelling, up to slashes at
    the end of a directory: another spelling of the same place
    ([./study], an absolute path, a link) is taken as another path. *)
Record World : Type := {
  fs_dirs : list string;
  fs_files : dict;
  log : list (Level * Msg)
}.

(** What the script only reads. *)
Record Env : Type := {
  env_walk : string -> list (string * list string);
  env_tags : TagsFile;
  env_dcmread : string -> Res Pydicom.Dataset
}.

(** What differs from one run to the next on the same files: the random
    generator and the clock. *)
Record Chance : Type := {
  chance_sample : list string -> nat -> list string;
  start_time : Z;
  end_time : Z
}.

(** The command line after [argparse]. *)
Record Args : Type := {
  path_shared_folder : string;
  output_dir_arg : option string
}.

(** ** Statements: state, early [return] and exceptions *)

Inductive Ctl (A : Type) : Type :=
| Val (a : A)
| Return (z : Z)
| Raise (e : PyExn).
Arguments Val {A} a.
Arguments Return {A} z.
Arguments Raise {A} e.

Definition M (A : Type) : Type := World -> Ctl A * World.

Definition ret {A} (a : A) : M A := fun w => (Val a, w).

Definition bind {A B} (m : M A) (k : A -> M B) : M B :=
  fun w =>
    match m w with
    | (Val a, w') => k a w'
    | (Return z, w') => (Return z, w')
    | (Raise e, w') => (Raise e, w')
    end.

Definition py_return {A} (z : Z) : M A := fun w => (Return z, w).

Definition py_raise {A} (e : PyExn) : M A := fun w => (Raise e, w).

Definition lift {A} (r : Res A) : M A :=
  match r with
  | Ok a => ret a
  | Err e => py_raise e
  end.

(** [try: body except Exception as e: handler(e)] *)
Definition try_except {A} (body : M A) (handler : PyExn -> M A) : M A :=
  fun w =>
    match body w with
    | (Raise e, w') => handler e w'
    | r => r
    end.

Declare Scope py_scope.
Delimit Scope py_scope with py.
Notation "x <- m ;; k" := (bind m (fun x => k))
  (at level 61, m at next level, right associativity) : py_scope.
Notation "m ;; k" := (bind m (fun _ => k))
  (at level 61, right associativity) : py_scope.
Open Scope py_scope.

Fixpoint for_each {A} (l : list A) (body : A -> M unit) : M unit :=
  match l with
  | [] => ret tt
  | x :: r => body x ;; for_each r body
  end.

Definition logger (lvl : Level) (msg : Msg) : M unit :=
  fun w => (Val tt, {| fs_dirs := fs_dirs w; fs_files := fs_files w;
                       log := (log w ++ [(lvl, msg)])%list |}).

(** ** The file system calls *)

Definition nl : string := String "010" EmptyString.

Definition same_dir (p q : string) : bool :=
  String.eqb (PyStr.rstrip "/" p) (PyStr.rstrip "/" q).

Definition is_file (w : World) (p : string) : bool :=
  existsb (fun kv => String.eqb (fst kv) p) (fs_files w).

(** The root directory always exists; the empty path names nothing. *)
Definition is_dir (w : World) (p : string) : bool :=
  negb (String.eqb p "") &&
  (String.eqb (PyStr.rstrip "/" p) "" || existsb (same_dir p) (fs_dirs w)).

Definition os_path_exists (p : string) : M bool :=
  fun w => (Val (is_dir w p || is_file w p), w).

(** [os.walk(top)] yields nothing when [top] is not a directory. *)
Definition os_walk (env : Env) (top : string) : M (list (string * list string)) :=
  fun w => (Val (if is_dir w top then env_walk env top else []), w).

(** A path and the directories above it, the root excluded. *)
Fixpoint lineage (fuel : nat) (p : string) : list string :=
  match fuel with
  | O => []
  | S f =>
      match PyStr.rstrip "/" p with
      | EmptyString => []
      | q => q :: lineage f (OsPath.dirname q)
      end
  end.

(** [os.makedirs(name, exist_ok=True)]: [name] and the directories above
    it exist afterwards, unless a file is in the way. *)
Definition os_makedirs (name : string) : M unit :=
  fun w =>
    if String.eqb name "" then (Raise FileNotFoundError, w)
    else
      match lineage (S (String.length name)) name with
      | [] => (Val tt, w)
      | target :: above =>
          if existsb (is_file w) above then (Raise NotADirectoryError, w)
          else if is_file w target then (Raise FileExistsError, w)
          else (Val tt,
                {| fs_dirs := (fs_dirs w ++
                                 filter (fun d => negb (is_dir w d))
                                        (rev (target :: above)))%list;
                   fs_files := fs_files w;
                   log := log w |})
      end.

(** [open(p, 'w')]: the file is created or emptied; its directory has to
    exist already. *)
Definition open_w (p : string) : M unit :=
  fun w =>
    if String.eqb p "" then (Raise FileNotFoundError, w)
    else if is_dir w p then (Raise IsADirectoryError, w)
    else
      let parent := OsPath.dirname p in
      if String.eqb parent "" || is_dir w parent
      then (Val tt, {| fs_dirs := fs_dirs w;
                       fs_files := dict_set p "" (fs_files w);
                       log := log w |})
      else if is_file w parent then (Raise NotADirectoryError, w)
      else (Raise FileNotFoundError, w).

Definition read_file (w : World) (p : string) : option string :=
  if is_file w p then Some (dict_get p (fs_files w) "") else None.

(** [output_file.write(s)] on the file opened at [p].  The write is
    taken to succeed: the encoding of the destination can encode the
    text and the device takes it. *)
Definition file_write (p s : string) : M unit :=
  fun w => (Val tt, {| fs_dirs := fs_dirs w;
                       fs_files := dict_set p (dict_get p (fs_files w) "" ++ s) (fs_files w);
                       log := log w |}).

Definition file_close (p : string) : M unit := ret tt.

(** [random.sample(population, k)] *)
Definition random_sample (ch : Chance) (population : list string) (k : nat)
  : M (list string) :=
  if Nat.ltb (List.length population) k then py_raise ValueError
  else ret (chance_sample ch population k).

(** [l[0]] *)
Definition index0 {A} (l : list A) : Res A :=
  match l with
  | [] => Err IndexError
  | x :: _ => Ok x
  end.

(** ** [list_dicom_files] *)

Definition is_dcm (file : string) : bool :=
  PyStr.endswith (PyStr.lower file) ".dcm".

Definition list_dicom_files (env : Env) (path : string) : M (list string) :=
  walk <- os_walk env path ;;
  ret (flat_map
         (fun entry => map (OsPath.join (fst entry)) (filter is_dcm (snd entry)))
         walk).

(** ** [main] *)

Definition tags_path : string := "selected_tags.json".

(** Lines 164 to 172: the value of one tag, as it goes into [data]. *)
Definition extract_tag (ds : Pydicom.Dataset) (tag_str : string) : M string :=
  value <- try_except
             (tag <- lift (convert_string_to_tag tag_str) ;;
              value <- lift (Pydicom.get_value ds tag) ;;
              ret (match value with
                   | Some element_value => element_value
                   | None => Pydicom.PyNone
                   end))
             (fun e => logger WARNING (MsgTagFailed tag_str e) ;;
                       ret Pydicom.PyNone) ;;
  ret (match value with
       | Pydicom.PyNone => ""
       | _ => PyStr.replace ";" "," (Pydicom.str value)
       end).

(** Lines 163 to 173: the loop over the tags, filling [data]. *)
Fixpoint extract_tags (ds : Pydicom.Dataset) (tags : list string) (data : dict)
  : M dict :=
  match tags with
  | [] => ret data
  | tag_str :: rest =>
      value <- extract_tag ds tag_str ;;
      extract_tags ds rest (dict_set tag_str value data)
  end.

(** Line 177: the line of one record. *)
Definition record_line (selected_tags data : dict) : string :=
  PyStr.join ";" (map (fun tag => dict_get tag data "")
                      (dict_keys selected_tags ++ ["FilePath"])%list) ++ nl.

(** Lines 153 to 181: one turn of the loop over the files. *)
Definition process_file (env : Env) (selected_tags : dict) (output_dir file : string)
  : M unit :=
  try_except
    (ds <- lift (env_dcmread env file) ;;
     let ds_keys := Pydicom.keys ds in
     ds_key <- lift (index0 ds_keys) ;;
     selected_tag <- lift (index0 (dict_keys selected_tags)) ;;
     logger DEBUG (MsgFirstKeys ds_key selected_tag) ;;
     data <- extract_tags ds (dict_keys selected_tags) [] ;;
     logger DEBUG (MsgExtracted file data) ;;
     let data := dict_set "FilePath" file data in
     file_write output_dir (record_line selected_tags data) ;;
     logger DEBUG (MsgProcessed file))
    (fun e => logger ERROR (MsgReadError file e)).

(** Lines 103 to 110. *)
Definition resolve_output (args : Args) : M string :=
  let shared_folder := OsPath.basename (OsPath.normpath (path_shared_folder args)) in
  match output_dir_arg args with
  | None => ret ("results/" ++ shared_folder ++ ".csv")
  | Some output_dir =>
      if negb (PyStr.endswith output_dir ".csv")
      then logger WARNING (MsgAppendingCsv output_dir) ;; ret (output_dir ++ ".csv")
      else ret output_dir
  end.

(** Lines 131 to 141. *)
Definition load_tags (env : Env) : M PyJson :=
  match env_tags env with
  | TagsAbsent => logger ERROR (MsgTagsMissing tags_path) ;; py_return 1%Z
  | TagsUnreadable e => py_raise e
  | TagsMalformed => logger ERROR (MsgJsonError tags_path) ;; py_return 1%Z
  | TagsDocument doc =>
      let selected_tags := json_load doc in
      n <- lift (py_len selected_tags) ;;
      logger INFO (MsgLoadedTags n) ;;
      ret selected_tags
  end.

(** Lines 102 to 119: the destination is resolved and, when the shared
    folder is missing, the directory of the destination is created. *)
Definition prepare (args : Args) : M string :=
  let shared_folder := OsPath.basename (OsPath.normpath (path_shared_folder args)) in
  output_dir <- resolve_output args ;;
  logger INFO (MsgSharedFolderPath (path_shared_folder args)) ;;
  logger INFO (MsgSharedFolder shared_folder) ;;
  logger INFO (MsgOutputDirectory output_dir) ;;
  found <- os_path_exists (path_shared_folder args) ;;
  (if negb found
   then logger WARNING (MsgFolderMissing (path_shared_folder args)) ;;
        os_makedirs (OsPath.dirname output_dir)
   else ret tt) ;;
  ret output_dir.

Definition main (env : Env) (ch : Chance) (args : Args) : M unit :=
  output_dir <- prepare args ;;
  logger INFO MsgListing ;;
  dicom_files <- list_dicom_files env (path_shared_folder args) ;;
  (match dicom_files with
   | [] => logger ERROR MsgNoDicomFiles ;; py_return 1%Z
   | _ => ret tt
   end) ;;
  logger INFO (MsgFound (List.length dicom_files)) ;;
  sample <- random_sample ch dicom_files 10 ;;
  logger DEBUG (MsgSample sample) ;;
  selected_tags <- load_tags env ;;
  logger DEBUG (MsgSelectedTags selected_tags) ;;
  logger INFO MsgMerging ;;
  logger INFO (MsgCreating output_dir) ;;
  open_w output_dir ;;
  header <- lift (py_keys selected_tags) ;;
  file_write output_dir (PyStr.join ";" (header ++ ["FilePath"])%list ++ nl) ;;
  logger INFO MsgHeaderWritten ;;
  logger DEBUG (MsgHeader (header ++ ["FilePath"])%list) ;;
  logger INFO MsgProcessing ;;
  match selected_tags with
  | PyDict tags =>
      for_each dicom_files (process_file env tags output_dir) ;;
      file_close output_dir ;;
      py_return 1%Z
  | _ => py_raise AttributeError
  end.

(** ** The script: lines 186 to 202 *)

(** The block under [if __name__ == "__main__"].  It runs in the world
    the module-level lines 28 to 59 have left: they create the directory
    [logs] and open the log file before line 186 is reached. *)

Definition script (env : Env) (ch : Chance) (args : Args) (w : World)
  : bool * World :=
  let w1 := snd (logger INFO MsgStarting w) in
  let '(success, w2) :=
    match main env ch args w1 with
    | (Raise e, w') => (false, snd (logger ERROR (MsgAnErrorOccurred e) w'))
    | (_, w') => (true, w')
    end in
  let w3 := snd ((if success
                  then logger INFO MsgCompletedSuccessfully
                  else logger ERROR MsgEncounteredError) w2) in
  let w4 := snd (logger INFO (MsgCompletedIn (end_time ch - start_time ch)%Z) w3) in
  (success, w4).

(** * Notions used in the statements *)

(** The world after more log records. *)
Definition add_log (w : World) (l : list (Level * Msg)) : World :=
  {| fs_dirs := fs_dirs w; fs_files := fs_files w; log := (log w ++ l)%list |}.

(** The world when [main] is entered: the script has logged its start. *)
Definition started (w : World) : World := snd (logger INFO MsgStarting w).

(** The content of the file at [p], empty when there is none. *)
Definition written (w : World) (p : string) : string :=
  dict_get p (fs_files w) "".

(** The world after [s] was appended to the file at [p] and [l] to the
    log. *)
Definition wrote (w : World) (p s : string) (l : list (Level * Msg)) : World :=
  {| fs_dirs := fs_dirs w;
     fs_files := dict_set p (written w p ++ s) (fs_files w);
     log := (log w ++ l)%list |}.

(** The number of [;]-separated columns of a line. *)
Definition columns (line : string) : nat :=
  List.length (PyStr.split ";" line).

(** What [extract_tag] returns, without the log. *)
Definition tag_value (ds : Pydicom.Dataset) (tag_str : string) : string :=
  match convert_string_to_tag tag_str with
  | Ok tag =>
      match Pydicom.get_value ds tag with
      | Ok (Some (Pydicom.PyObj s)) => PyStr.replace ";" "," s
      | _ => ""
      end
  | Err _ => ""
  end.

(** The strings line 177 joins: the entry of [data] for each tag, then
    the path.  A tag named [FilePath] finds the path in [data]. *)
Definition record_cells (ds : Pydicom.Dataset) (tags : list string) (file : string)
  : list string :=
  (map (fun tag => if String.eqb tag "FilePath" then file else tag_value ds tag) tags
     ++ [file])%list.

(** The column at which the field of index [i] stands in the line of
    [file]: the [i]-th, moved right by the [;] of the path for each
    field named [FilePath] before it. *)
Definition column_of (tags : list string) (file : string) (i : nat) : nat :=
  i + count_occ string_dec (firstn i tags) "FilePath" * PyStr.count ";" file.

(** What [list_dicom_files] returns in a world. *)
Definition found_files (env : Env) (path : string) (w : World) : list string :=
  flat_map (fun entry => map (OsPath.join (fst entry)) (filter is_dcm (snd entry)))
           (if is_dir w path then env_walk env path else []).

(** Two worlds with the same directories and files; their logs may
    differ. *)
Definition same_fs (w1 w2 : World) : Prop :=
  fs_dirs w1 = fs_dirs w2 /\ fs_files w1 = fs_files w2.

Definition same_ctl {A} (R : A -> A -> Prop) (c1 c2 : Ctl A) : Prop :=
  match c1, c2 with
  | Val a, Val b => R a b
  | Return x, Return y => x = y
  | Raise e, Raise f => e = f
  | _, _ => False
  end.

(** Two statements that, from worlds with the same files, end the same
    way in worlds with the same files. *)
Definition sim {A} (R : A -> A -> Prop) (m1 m2 : M A) : Prop :=
  forall w1 w2, same_fs w1 w2 ->
    same_ctl R (fst (m1 w1)) (fst (m2 w2)) /\ same_fs (snd (m1 w1)) (snd (m2 w2)).

Definition any {A} (_ _ : A) : Prop := True.

(** * A study folder to run the script on *)

(** One data element, Modality (0008,0060), with value [MR]. *)
Definition scan : Pydicom.Dataset :=
  [(524384%Z, Pydicom.Element (Pydicom.PyObj "MR"))].

(** Modality with a value that holds the delimiter, and a comment that
    holds a line break. *)
Definition scan_semicolon : Pydicom.Dataset :=
  [(524384%Z, Pydicom.Element (Pydicom.PyObj "A;B"));
   (2113536%Z, Pydicom.Element (Pydicom.PyObj ("first" ++ nl ++ "second;third")))].

Definition two_tags : JsonDoc :=
  JsonObject [("(0008,0060)", "Modality"); ("(0010,0010)", "PatientName")].

Definition two_tags_dict : dict :=
  [("(0008,0060)", "Modality"); ("(0010,0010)", "PatientName")].


(** The folder [study] holds the files [names]; reading [corrupt] fails,
    an empty file name reads as an empty data set, every other file reads
    as [ds]. *)
Definition study_env (names : list string) (corrupt : string)
           (ds : Pydicom.Dataset) (tags : TagsFile) : Env :=
  {| env_walk := fun top => if String.eqb top "study" then [("study", names)] else [];
     env_tags := tags;
     env_dcmread := fun file =>
       if String.eqb file corrupt then Err InvalidDicomError
       else if String.eqb file "study/empty.dcm" then Ok []
       else Ok ds |}.

Definition first_k : Chance :=
  {| chance_sample := fun population k => firstn k population;
     start_time := 0; end_time := 1 |}.

Definition study_args : Args :=
  {| path_shared_folder := "study"; output_dir_arg := None |}.

(** The folders [study] and [results] exist. *)
Definition study_world : World :=
  {| fs_dirs := ["study"; "results"]; fs_files := []; log := [] |}.

(** Only the folder [study] exists. *)
Definition bare_world : World :=
  {| fs_dirs := ["study"]; fs_files := []; log := [] |}.

Definition three_files : list string := ["a.dcm"; "b.dcm"; "c.dcm"].

Definition ten_files : list string :=
  ["s0.dcm"; "s1.dcm"; "s2.dcm"; "s3.dcm"; "s4.dcm";
   "s5.dcm"; "s6.dcm"; "s7.dcm"; "s8.dcm"; "s9.dcm"].

Definition ten_files_semicolon : list string :=
  ["a;b.dcm"; "s1.dcm"; "s2.dcm"; "s3.dcm"; "s4.dcm";
   "s5.dcm"; "s6.dcm"; "s7.dcm"; "s8.dcm"; "s9.dcm"].

Create HintDb sim discriminated.

(** * More notions for the statements about whole runs *)

(** Why [process_file] gives a file up, if it does: the exception of
    [dcmread], or the [IndexError] of line 159 when the data set or the
    tag document is empty. *)
Definition file_error (env : Env) (tags : dict) (file : string) : option PyExn :=
  match env_dcmread env file with
  | Err e => Some e
  | Ok ds =>
      match ds, tags with
      | _ :: _, _ :: _ => None
      | _, _ => Some IndexError
      end
  end.

(** The text [process_file] appends to the table for a file: its line,
    or nothing when the file is given up. *)
Definition file_row (env : Env) (tags : dict) (file : string) : string :=
  match env_dcmread env file with
  | Err _ => ""
  | Ok ds =>
      match ds, tags with
      | _ :: _, _ :: _ => PyStr.join ";" (record_cells ds (dict_keys tags) file) ++ nl
      | _, _ => ""
      end
  end.

(** The header of line 148. *)
Definition header_line (tags : dict) : string :=
  PyStr.join ";" (dict_keys tags ++ ["FilePath"])%list ++ nl.

(** The whole table: the header, then the text of each file in turn. *)
Definition table_text (env : Env) (tags : dict) (files : list string) : string :=
  header_line tags ++ String.concat "" (map (file_row env tags) files).

(** A statement whose final world is related to its initial world. *)
Definition keeps {A} (R : World -> World -> Prop) (m : M A) : Prop :=
  forall w, R w (snd (m w)).

Definition same_dirs (w w' : World) : Prop := fs_dirs w' = fs_dirs w.

(** Lines 130 to 184: what [main] does once the files are listed and
    sampled. *)
Definition after_sample (env : Env) (output_dir : string) (dicom_files : list string)
  : M unit :=
  selected_tags <- load_tags env ;;
  logger DEBUG (MsgSelectedTags selected_tags) ;;
  logger INFO MsgMerging ;;
  logger INFO (MsgCreating output_dir) ;;
  open_w output_dir ;;
  header <- lift (py_keys selected_tags) ;;
  file_write output_dir (PyStr.join ";" (header ++ ["FilePath"])%list ++ nl) ;;
  logger INFO MsgHeaderWritten ;;
  logger DEBUG (MsgHeader (header ++ ["FilePath"])%list) ;;
  logger INFO MsgProcessing ;;
  match selected_tags with
  | PyDict tags =>
      for_each dicom_files (process_file env tags output_dir) ;;
      file_close output_dir ;;
      py_return 1%Z
  | _ => py_raise AttributeError
  end.

(** The world in which [after_sample] starts. *)
Definition sampled (ch : Chance) (w1 : World) (files : list string) : World :=
  add_log w1 [(INFO, MsgListing); (INFO, MsgFound (List.length files));
              (DEBUG, MsgSample (chance_sample ch files 10))].

(** The world of the study folder once [prepare] has run. *)
Definition prepared_study : World :=
  add_log study_world
    [(INFO, MsgStarting); (INFO, MsgSharedFolderPath "study");
     (INFO, MsgSharedFolder "study");
     (INFO, MsgOutputDirectory "results/study.csv")].

Definition ten_paths : list string :=
  ["study/s0.dcm"; "study/s1.dcm"; "study/s2.dcm"; "study/s3.dcm"; "study/s4.dcm";
   "study/s5.dcm"; "study/s6.dcm"; "study/s7.dcm"; "study/s8.dcm"; "study/s9.dcm"].

(** * Properties *)

(** ** The tag parser on examples *)

Example convert_modality : convert_string_to_tag "(0008,0060)" = Ok 524384%Z.
Proof. reflexivity. Qed.

Example convert_prefixed : convert_string_to_tag "( 0x0008, 00_60 )" = Ok 524384%Z.
Proof. reflexivity. Qed.

Example convert_one_token : convert_string_to_tag "(00080060)" = Err ValueError.
Proof. reflexivity. Qed.

Example convert_three_tokens :
  convert_string_to_tag "(0008,0060,0001)" = Err ValueError.
Proof. reflexivity. Qed.

Example convert_not_hex : convert_string_to_tag "Modality" = Err ValueError.
Proof. reflexivity. Qed.

Example convert_too_wide : convert_string_to_tag "(10000,0060)" = Err OverflowError.
Proof. reflexivity. Qed.

Example convert_negative : convert_string_to_tag "(-1,0060)" = Err ValueError.
Proof. reflexivity. Qed.

Example normpath_study : OsPath.basename (OsPath.normpath "/data/./study/") = "study".
Proof. reflexivity. Qed.

Example dirname_default : OsPath.dirname "results/study.csv" = "results".
Proof. reflexivity. Qed.

(** A name that parses as a tag is not the name of the path column. *)
Lemma convert_ok_not_FilePath tag_str tag :
  convert_string_to_tag tag_str = Ok tag -> String.eqb tag_str "FilePath" = false.
Proof.
  intros H. destruct (String.eqb tag_str "FilePath") eqn:E; auto.
  apply String.eqb_eq in E. subst. discriminate.
Qed.

(** ** Strings *)

Lemma replace_length o n s : String.length (PyStr.replace o n s) = String.length s.
Proof. induction s; simpl; auto. Qed.

Lemma replace_get o n s : forall i,
  String.get i (PyStr.replace o n s) =
  option_map (fun c => if Ascii.eqb c o then n else c) (String.get i s).
Proof.
  induction s as [|c s IH]; intros [|i]; simpl; auto.
Qed.

Lemma replace_count o n s : o <> n -> PyStr.count o (PyStr.replace o n s) = 0.
Proof.
  intros Hne. unfold PyStr.replace. induction s as [|c s IH]; simpl; auto.
  rewrite IH. destruct (Ascii.eqb c o) eqn:E.
  - destruct (Ascii.eqb n o) eqn:E'; [|reflexivity].
    apply Ascii.eqb_eq in E'. congruence.
  - now rewrite E.
Qed.

Lemma replace_absent o n s : PyStr.count o s = 0 -> PyStr.replace o n s = s.
Proof.
  unfold PyStr.replace. induction s as [|c s IH]; simpl; auto.
  destruct (Ascii.eqb c o); simpl; [discriminate|]. intros H. now rewrite IH.
Qed.


Lemma split_length sep s : List.length (PyStr.split sep s) = S (PyStr.count sep s).
Proof.
  induction s as [|c s IH]; simpl; auto.
  destruct (Ascii.eqb c sep); simpl.
  - now rewrite IH.
  - destruct (PyStr.split sep s); simpl in *; lia.
Qed.



(** ** Dictionaries *)

Lemma dict_get_set_same k v d x : dict_get k (dict_set k v d) x = v.
Proof.
  induction d as [|[k' v'] d IH]; simpl.
  - now rewrite String.eqb_refl.
  - destruct (String.eqb k' k) eqn:E; simpl; rewrite E; auto.
Qed.

Lemma dict_get_set_other k k' v d x :
  k <> k' -> dict_get k (dict_set k' v d) x = dict_get k d x.
Proof.
  intros Hne. induction d as [|[k0 v0] d IH]; simpl.
  - destruct (String.eqb k' k) eqn:E; auto. apply String.eqb_eq in E. congruence.
  - destruct (String.eqb k0 k') eqn:E; simpl.
    + apply String.eqb_eq in E. subst k0.
      destruct (String.eqb k' k) eqn:E'; auto. apply String.eqb_eq in E'. congruence.
    + now rewrite IH.
Qed.

Lemma existsb_eqb_In k (l : list string) : In k l -> existsb (String.eqb k) l = true.
Proof.
  intros H. apply existsb_exists. exists k. split; auto. apply String.eqb_refl.
Qed.

Lemma dict_keys_nonempty (d : dict) : dict_keys d <> [] -> d <> [].
Proof. intros H ->. now apply H. Qed.

Lemma nth_error_some_nonempty {A} (l : list A) i x : nth_error l i = Some x -> l <> [].
Proof. intros H ->. destruct i; discriminate. Qed.

(** The keys of a loaded object are distinct. *)
Lemma dict_set_keys k v d :
  dict_keys (dict_set k v d) =
  if existsb (String.eqb k) (dict_keys d) then dict_keys d
  else (dict_keys d ++ [k])%list.
Proof.
  induction d as [|[k' v'] d IH]; simpl; auto.
  rewrite (String.eqb_sym k k'). destruct (String.eqb k' k) eqn:E; simpl; auto.
  rewrite IH. destruct (existsb _ _); reflexivity.
Qed.

Lemma dict_set_NoDup k v d : NoDup (dict_keys d) -> NoDup (dict_keys (dict_set k v d)).
Proof.
  intros H. rewrite dict_set_keys.
  destruct (existsb (String.eqb k) (dict_keys d)) eqn:E; auto.
  apply NoDup_app; auto.
  - constructor; [intros []|constructor].
  - intros x Hx [<-|[]]. rewrite existsb_eqb_In in E by assumption. discriminate.
Qed.

Lemma json_load_NoDup members d :
  json_load (JsonObject members) = PyDict d -> NoDup (dict_keys d).
Proof.
  simpl. intros H. injection H as <-.
  assert (G : forall l d0, NoDup (dict_keys d0) ->
            NoDup (dict_keys (fold_left (fun d kv => dict_set (fst kv) (snd kv) d) l d0))).
  { induction l as [|kv l IH]; intros d0 H0; simpl; auto.
    apply IH. now apply dict_set_NoDup. }
  apply G. constructor.
Qed.

(** ** The log leaves the files alone *)

Lemma add_log_nil w : add_log w [] = w.
Proof. destruct w; unfold add_log; simpl. now rewrite app_nil_r. Qed.

Lemma add_log_add_log w l1 l2 : add_log (add_log w l1) l2 = add_log w (l1 ++ l2).
Proof. unfold add_log; simpl. now rewrite app_assoc. Qed.

Lemma logger_add_log lvl msg w : logger lvl msg w = (Val tt, add_log w [(lvl, msg)]).
Proof. reflexivity. Qed.

Lemma read_file_same_files w1 w2 p :
  fs_files w1 = fs_files w2 -> read_file w1 p = read_file w2 p.
Proof. intros H. unfold read_file, is_file. now rewrite H. Qed.

(** ** One record *)

Lemma extract_tag_spec ds tag_str w :
  exists l, extract_tag ds tag_str w = (Val (tag_value ds tag_str), add_log w l).
Proof.
  unfold extract_tag, tag_value, bind, try_except, lift.
  destruct (convert_string_to_tag tag_str) as [tag|e]; simpl.
  - destruct (Pydicom.get_value ds tag) as [[[|s]|]|e]; simpl.
    + exists []. now rewrite add_log_nil.
    + exists []. now rewrite add_log_nil.
    + exists []. now rewrite add_log_nil.
    + eexists. reflexivity.
  - eexists. reflexivity.
Qed.

Lemma extract_tags_spec ds tags : forall data w,
  exists l, extract_tags ds tags data w =
            (Val (fold_left (fun d t => dict_set t (tag_value ds t) d) tags data),
             add_log w l).
Proof.
  induction tags as [|t tags IH]; intros data w; simpl.
  - exists []. now rewrite add_log_nil.
  - unfold bind. destruct (extract_tag_spec ds t w) as [l1 ->].
    destruct (IH (dict_set t (tag_value ds t) data) (add_log w l1)) as [l2 ->].
    exists (l1 ++ l2)%list. now rewrite add_log_add_log.
Qed.

Lemma dict_get_fold ds tags : forall data k x,
  dict_get k (fold_left (fun d t => dict_set t (tag_value ds t) d) tags data) x =
  if existsb (String.eqb k) tags then tag_value ds k else dict_get k data x.
Proof.
  induction tags as [|t tags IH]; intros data k x; simpl; auto.
  rewrite IH. destruct (existsb (String.eqb k) tags) eqn:E.
  - now rewrite orb_true_r.
  - rewrite orb_false_r. destruct (String.eqb k t) eqn:Ek.
    + apply String.eqb_eq in Ek. subst. apply dict_get_set_same.
    + apply dict_get_set_other. intros ->. now rewrite String.eqb_refl in Ek.
Qed.

Lemma record_line_cells ds (tags : dict) file :
  record_line tags
    (dict_set "FilePath" file
       (fold_left (fun d t => dict_set t (tag_value ds t) d) (dict_keys tags) [])) =
  PyStr.join ";" (record_cells ds (dict_keys tags) file) ++ nl.
Proof.
  unfold record_line, record_cells. f_equal. f_equal.
  rewrite map_app. simpl. rewrite dict_get_set_same. f_equal.
  apply map_ext_in. intros k Hk.
  destruct (String.eqb k "FilePath") eqn:E.
  - apply String.eqb_eq in E. subst. apply dict_get_set_same.
  - rewrite dict_get_set_other.
    + rewrite dict_get_fold. now rewrite existsb_eqb_In.
    + intros ->. now rewrite String.eqb_refl in E.
Qed.


Lemma record_cells_nth ds tags file i tag_str :
  nth_error tags i = Some tag_str ->
  nth i (record_cells ds tags file) "" =
  if String.eqb tag_str "FilePath" then file else tag_value ds tag_str.
Proof.
  intros H. unfold record_cells. apply nth_error_nth.
  rewrite nth_error_app1.
  - now apply (map_nth_error
                 (fun tag => if String.eqb tag "FilePath" then file else tag_value ds tag)).
  - rewrite length_map. apply nth_error_Some. congruence.
Qed.

Lemma tag_value_clean ds tag_str : PyStr.count ";" (tag_value ds tag_str) = 0.
Proof.
  unfold tag_value. destruct (convert_string_to_tag tag_str) as [tag|]; auto.
  destruct (Pydicom.get_value ds tag) as [[[|s]|]|]; auto.
  apply replace_count. discriminate.
Qed.


Lemma get_value_some_nonempty ds tag v :
  Pydicom.get_value ds tag = Ok (Some v) -> ds <> [].
Proof. intros H ->. discriminate. Qed.

(** A file that reads as a data set with an element, under at least one
    tag, gets its line appended to the table. *)
Lemma process_file_spec env (tags : dict) out file ds w :
  env_dcmread env file = Ok ds -> ds <> [] -> tags <> [] ->
  exists l, process_file env tags out file w =
            (Val tt,
             wrote w out (PyStr.join ";" (record_cells ds (dict_keys tags) file) ++ nl) l).
Proof.
  intros Hread Hds Htags. unfold process_file, try_except, bind at 1.
  rewrite Hread. simpl.
  destruct ds as [|[k0 el0] ds']; [contradiction|].
  destruct tags as [|[t0 v0] tags']; [contradiction|].
  unfold bind. simpl lift. cbv beta iota.
  change (ret k0 w) with (Val k0, w). cbv beta iota.
  change (ret t0 w) with (Val t0, w). cbv beta iota.
  rewrite logger_add_log.
  destruct (extract_tags_spec ((k0, el0) :: ds') (dict_keys ((t0, v0) :: tags')) []
              (add_log w [(DEBUG, MsgFirstKeys k0 t0)])) as [l ->].
  rewrite logger_add_log. rewrite record_line_cells.
  eexists. unfold file_write, wrote, written, add_log. simpl.
  rewrite <- !app_assoc. reflexivity.
Qed.

(** A file that cannot be read is logged and leaves the table as it was. *)
Lemma process_file_unreadable env (tags : dict) out file e w :
  env_dcmread env file = Err e ->
  process_file env tags out file w = (Val tt, add_log w [(ERROR, MsgReadError file e)]).
Proof.
  intros Hread. unfold process_file, try_except, bind at 1. now rewrite Hread.
Qed.

(** ** The steps of [main] *)

Lemma list_dicom_files_spec env path w :
  list_dicom_files env path w = (Val (found_files env path w), w).
Proof. reflexivity. Qed.

Lemma found_files_add_log env path w l :
  found_files env path (add_log w l) = found_files env path w.
Proof. reflexivity. Qed.

Lemma os_makedirs_files name w :
  fs_files (snd (os_makedirs name w)) = fs_files w.
Proof.
  unfold os_makedirs. destruct (String.eqb name ""); auto.
  destruct (lineage _ _); auto.
  destruct (existsb _ _); auto. destruct (is_file w s); auto.
Qed.

Lemma resolve_output_spec args w :
  exists o l, resolve_output args w = (Val o, add_log w l).
Proof.
  unfold resolve_output. destruct (output_dir_arg args) as [o|].
  - destruct (negb (PyStr.endswith o ".csv")).
    + eexists _, _. reflexivity.
    + exists o, []. now rewrite add_log_nil.
  - eexists _, []. now rewrite add_log_nil.
Qed.

Lemma prepare_files args w :
  fs_files (snd (prepare args w)) = fs_files w.
Proof.
  unfold prepare, bind at 1.
  destruct (resolve_output_spec args w) as (o & l & ->).
  unfold bind, logger, os_path_exists. simpl.
  destruct (negb _); simpl; auto.
  match goal with |- context [os_makedirs ?n ?w'] =>
    pose proof (os_makedirs_files n w') as H; destruct (os_makedirs n w') as [[[]| |] w2]
  end; simpl in *; auto.
Qed.

Lemma prepare_started_files args w output_dir w1 :
  prepare args (started w) = (Val output_dir, w1) -> fs_files w1 = fs_files w.
Proof.
  intros H. pose proof (prepare_files args (started w)) as Hf.
  rewrite H in Hf. exact Hf.
Qed.

(** The directory of the destination is created only on the path where
    the shared folder is missing. *)
Lemma prepare_existing_folder args w :
  is_dir w (path_shared_folder args) = true ->
  fs_dirs (snd (prepare args w)) = fs_dirs w.
Proof.
  intros Hdir. unfold prepare, bind at 1.
  destruct (resolve_output_spec args w) as (o & l & ->).
  unfold bind, logger, os_path_exists. simpl.
  change (is_dir _ (path_shared_folder args)) with (is_dir w (path_shared_folder args)).
  rewrite Hdir. reflexivity.
Qed.

Lemma main_after_prepare env ch args w output_dir w1 :
  prepare args w = (Val output_dir, w1) ->
  main env ch args w =
  (logger INFO MsgListing ;;
   dicom_files <- list_dicom_files env (path_shared_folder args) ;;
   (match dicom_files with
    | [] => logger ERROR MsgNoDicomFiles ;; py_return 1%Z
    | _ => ret tt
    end) ;;
   logger INFO (MsgFound (List.length dicom_files)) ;;
   sample <- random_sample ch dicom_files 10 ;;
   logger DEBUG (MsgSample sample) ;;
   selected_tags <- load_tags env ;;
   logger DEBUG (MsgSelectedTags selected_tags) ;;
   logger INFO MsgMerging ;;
   logger INFO (MsgCreating output_dir) ;;
   open_w output_dir ;;
   header <- lift (py_keys selected_tags) ;;
   file_write output_dir (PyStr.join ";" (header ++ ["FilePath"])%list ++ nl) ;;
   logger INFO MsgHeaderWritten ;;
   logger DEBUG (MsgHeader (header ++ ["FilePath"])%list) ;;
   logger INFO MsgProcessing ;;
   match selected_tags with
   | PyDict tags =>
       for_each dicom_files (process_file env tags output_dir) ;;
       file_close output_dir ;;
       py_return 1%Z
   | _ => py_raise AttributeError
   end) w1.
Proof. intros H. unfold main. unfold bind at 1. now rewrite H. Qed.

Lemma script_world env ch args w :
  exists l, snd (script env ch args w) = add_log (snd (main env ch args (started w))) l.
Proof.
  unfold script. simpl.
  change (snd (logger INFO MsgStarting w)) with (started w).
  destruct (main env ch args _) as [[a|z|e] w']; simpl; eexists;
    unfold add_log; simpl; rewrite <- ?app_assoc; reflexivity.
Qed.

(** The script reports a failure exactly when [main] raises. *)
Lemma script_status env ch args w :
  fst (script env ch args w) =
  match fst (main env ch args (started w)) with
  | Raise _ => false
  | _ => true
  end.
Proof.
  unfold script. change (snd (logger INFO MsgStarting w)) with (started w).
  destruct (main env ch args (started w)) as [[a|z|e] w']; reflexivity.
Qed.

(** ** Runs that differ in the random generator and in the clock *)

Lemma sim_ret {A} (R : A -> A -> Prop) a b : R a b -> sim R (ret a) (ret b).
Proof. intros H w1 w2 Hw. split; [exact H|exact Hw]. Qed.

Lemma sim_return {A} (R : A -> A -> Prop) z : sim R (py_return z) (py_return z).
Proof. intros w1 w2 Hw. split; [reflexivity|exact Hw]. Qed.

Lemma sim_raise {A} (R : A -> A -> Prop) e : sim R (py_raise e) (py_raise e).
Proof. intros w1 w2 Hw. split; [reflexivity|exact Hw]. Qed.

Lemma sim_lift {A} (r : Res A) : sim eq (lift r) (lift r).
Proof. destruct r; [now apply sim_ret|apply sim_raise]. Qed.

Lemma sim_logger lvl1 msg1 lvl2 msg2 : sim eq (logger lvl1 msg1) (logger lvl2 msg2).
Proof. intros w1 w2 Hw. split; [reflexivity|exact Hw]. Qed.

Lemma sim_bind {A B} (R : A -> A -> Prop) (S : B -> B -> Prop) m1 m2 k1 k2 :
  sim R m1 m2 -> (forall a b, R a b -> sim S (k1 a) (k2 b)) ->
  sim S (bind m1 k1) (bind m2 k2).
Proof.
  intros Hm Hk w1 w2 Hw. unfold bind.
  destruct (Hm w1 w2 Hw) as [Hc Hs].
  destruct (m1 w1) as [[a|x|e] w1'], (m2 w2) as [[b|y|f] w2']; simpl in *;
    try contradiction; auto.
  now apply Hk.
Qed.

Lemma sim_bind_eq {A B} (S : B -> B -> Prop) (m1 m2 : M A) k1 k2 :
  sim eq m1 m2 -> (forall a, sim S (k1 a) (k2 a)) ->
  sim S (bind m1 k1) (bind m2 k2).
Proof. intros Hm Hk. apply (sim_bind eq); auto. intros a b ->. apply Hk. Qed.

Lemma sim_try_except {A} (R : A -> A -> Prop) b1 b2 h1 h2 :
  sim R b1 b2 -> (forall e, sim R (h1 e) (h2 e)) ->
  sim R (try_except b1 h1) (try_except b2 h2).
Proof.
  intros Hb Hh w1 w2 Hw. unfold try_except.
  destruct (Hb w1 w2 Hw) as [Hc Hs].
  destruct (b1 w1) as [[a|x|e] w1'], (b2 w2) as [[b|y|f] w2']; simpl in *;
    try contradiction; auto.
  subst f. now apply Hh.
Qed.

Lemma sim_for_each {A} (l : list A) (f g : A -> M unit) :
  (forall x, sim eq (f x) (g x)) -> sim eq (for_each l f) (for_each l g).
Proof.
  intros H. induction l as [|x l IH]; simpl.
  - now apply sim_ret.
  - apply sim_bind_eq; auto.
Qed.

Lemma is_dir_same w1 w2 p : same_fs w1 w2 -> is_dir w1 p = is_dir w2 p.
Proof. intros [Hd _]. unfold is_dir. now rewrite Hd. Qed.

Lemma is_dir_same_fun w1 w2 : fs_dirs w1 = fs_dirs w2 -> is_dir w1 = is_dir w2.
Proof. intros Hd. unfold is_dir. now rewrite Hd. Qed.

Lemma is_file_same w1 w2 : same_fs w1 w2 -> is_file w1 = is_file w2.
Proof. intros [_ Hf]. unfold is_file. now rewrite Hf. Qed.

Lemma sim_os_path_exists p : sim eq (os_path_exists p) (os_path_exists p).
Proof.
  intros w1 w2 Hw. unfold os_path_exists. simpl.
  rewrite (is_dir_same _ _ p Hw), (is_file_same _ _ Hw). auto.
Qed.

Lemma sim_os_walk env top : sim eq (os_walk env top) (os_walk env top).
Proof.
  intros w1 w2 Hw. unfold os_walk. simpl. rewrite (is_dir_same _ _ top Hw). auto.
Qed.

Lemma sim_os_makedirs name : sim eq (os_makedirs name) (os_makedirs name).
Proof.
  intros w1 w2 Hw. unfold os_makedirs.
  destruct (String.eqb name ""); [split; [reflexivity|exact Hw]|].
  destruct (lineage _ _) as [|target above]; [split; [reflexivity|exact Hw]|].
  rewrite (is_file_same _ _ Hw).
  destruct (existsb (is_file w2) above); [split; [reflexivity|exact Hw]|].
  destruct (is_file w2 target); [split; [reflexivity|exact Hw]|].
  destruct Hw as [Hd Hf]. split; [reflexivity|]. split; simpl; auto.
  now rewrite (is_dir_same_fun _ _ Hd), Hd.
Qed.

Lemma sim_open_w p : sim eq (open_w p) (open_w p).
Proof.
  intros w1 w2 Hw. unfold open_w.
  destruct (String.eqb p ""); [split; [reflexivity|exact Hw]|].
  rewrite (is_dir_same _ _ p Hw), (is_dir_same _ _ (OsPath.dirname p) Hw),
    (is_file_same _ _ Hw).
  destruct (is_dir w2 p); [split; [reflexivity|exact Hw]|].
  destruct (String.eqb (OsPath.dirname p) "" || is_dir w2 (OsPath.dirname p)).
  - destruct Hw as [Hd Hf]. split; [reflexivity|]. split; simpl; congruence.
  - destruct (is_file w2 (OsPath.dirname p)); split; auto; reflexivity.
Qed.

Lemma sim_file_write p s : sim eq (file_write p s) (file_write p s).
Proof.
  intros w1 w2 [Hd Hf]. unfold file_write. split; [reflexivity|].
  split; simpl; congruence.
Qed.

Lemma sim_random_sample ch1 ch2 population k :
  sim any (random_sample ch1 population k) (random_sample ch2 population k).
Proof.
  unfold random_sample. destruct (Nat.ltb _ _).
  - apply sim_raise.
  - now apply sim_ret.
Qed.

#[local] Hint Resolve sim_ret sim_return sim_raise sim_lift sim_logger
  sim_os_path_exists sim_os_walk sim_os_makedirs sim_open_w sim_file_write
  sim_random_sample : sim.

Ltac sim_step :=
  first [ solve [auto with sim]
        | apply sim_ret; reflexivity
        | apply sim_bind_eq; [|intro]
        | apply sim_try_except; [|intro]
        | apply sim_for_each; intro ].

Ltac sim_auto := repeat sim_step.

Lemma sim_extract_tag ds tag_str : sim eq (extract_tag ds tag_str) (extract_tag ds tag_str).
Proof. unfold extract_tag. sim_auto. Qed.

Lemma sim_extract_tags ds tags : forall data,
  sim eq (extract_tags ds tags data) (extract_tags ds tags data).
Proof.
  induction tags as [|t tags IH]; intros data; simpl.
  - now apply sim_ret.
  - apply sim_bind_eq; [apply sim_extract_tag|]. intro. apply IH.
Qed.

#[local] Hint Resolve sim_extract_tags : sim.

Lemma sim_process_file env tags out file :
  sim eq (process_file env tags out file) (process_file env tags out file).
Proof. unfold process_file. sim_auto. Qed.

#[local] Hint Resolve sim_process_file : sim.

Lemma sim_resolve_output args : sim eq (resolve_output args) (resolve_output args).
Proof.
  unfold resolve_output. destruct (output_dir_arg args) as [o|]; [|sim_auto].
  destruct (negb _); sim_auto.
Qed.

Lemma sim_prepare args : sim eq (prepare args) (prepare args).
Proof.
  unfold prepare. apply sim_bind_eq; [apply sim_resolve_output|]. intro.
  sim_auto. destruct (negb _); sim_auto.
Qed.

Lemma sim_list_dicom_files env path :
  sim eq (list_dicom_files env path) (list_dicom_files env path).
Proof. unfold list_dicom_files. sim_auto. Qed.

Lemma sim_load_tags env : sim eq (load_tags env) (load_tags env).
Proof. unfold load_tags. destruct (env_tags env); sim_auto. Qed.

(** [main] ends the same way, with the same files, whatever the random
    generator draws. *)
Lemma sim_main env ch1 ch2 args : sim eq (main env ch1 args) (main env ch2 args).
Proof.
  unfold main.
  apply sim_bind_eq; [apply sim_prepare|]. intro output_dir.
  apply sim_bind_eq; [sim_auto|]. intros _.
  apply sim_bind_eq; [apply sim_list_dicom_files|]. intro dicom_files.
  apply sim_bind_eq; [destruct dicom_files; sim_auto|]. intros _.
  apply sim_bind_eq; [sim_auto|]. intros _.
  apply (sim_bind any); [apply sim_random_sample|]. intros s1 s2 _.
  apply sim_bind_eq; [sim_auto|]. intros _.
  apply sim_bind_eq; [apply sim_load_tags|]. intro selected_tags.
  sim_auto. destruct selected_tags; sim_auto.
Qed.

(** ** The columns of a line *)

Lemma split_app_sep sep a b :
  PyStr.split sep (a ++ String sep b) = (PyStr.split sep a ++ PyStr.split sep b)%list.
Proof.
  induction a as [|c a IH]; simpl.
  - now rewrite Ascii.eqb_refl.
  - rewrite IH. destruct (Ascii.eqb c sep); [reflexivity|].
    destruct (PyStr.split sep a) as [|hd tl] eqn:E; [|reflexivity].
    pose proof (split_length sep a) as H. rewrite E in H. discriminate.
Qed.

(** Splitting a joined line gives the columns of its strings, one after
    the other. *)
Lemma split_join cells :
  cells <> [] ->
  PyStr.split ";" (PyStr.join ";" cells) = flat_map (PyStr.split ";") cells.
Proof.
  unfold PyStr.join. induction cells as [|c cells IH]; intros Hne; [contradiction|].
  destruct cells as [|c' cells'].
  - simpl. now rewrite app_nil_r.
  - change (String.concat ";" (c :: c' :: cells'))
      with (c ++ String ";" (String.concat ";" (c' :: cells'))).
    rewrite split_app_sep, IH by discriminate. reflexivity.
Qed.

Lemma split_clean sep s : PyStr.count sep s = 0 -> PyStr.split sep s = [s].
Proof.
  induction s as [|c s IH]; simpl; [reflexivity|].
  destruct (Ascii.eqb c sep); [discriminate|]. simpl. intros H. now rewrite IH.
Qed.

Lemma flat_split_length ds file tags :
  List.length
    (flat_map (PyStr.split ";")
       (map (fun tag => if String.eqb tag "FilePath" then file else tag_value ds tag) tags)) =
  List.length tags + count_occ string_dec tags "FilePath" * PyStr.count ";" file.
Proof.
  induction tags as [|t tags IH]; [reflexivity|].
  cbn [map flat_map]. rewrite length_app, IH, split_length.
  cbn [count_occ List.length].
  destruct (string_dec t "FilePath") as [->|Hne].
  - rewrite String.eqb_refl. lia.
  - destruct (String.eqb t "FilePath") eqn:E.
    + apply String.eqb_eq in E. contradiction.
    + rewrite tag_value_clean. lia.
Qed.

Lemma skipn_nth_error {A} (l : list A) : forall i x,
  nth_error l i = Some x -> exists rest, skipn i l = x :: rest.
Proof.
  induction l as [|y l IH]; intros [|i] x Hi; simpl in *; try discriminate.
  - injection Hi as ->. now exists l.
  - now apply IH.
Qed.

Lemma record_column_at ds tags file i tag_str :
  nth_error tags i = Some tag_str ->
  exists rest,
    PyStr.split ";" (PyStr.join ";" (record_cells ds tags file)) =
    (flat_map (PyStr.split ";")
       (map (fun tag => if String.eqb tag "FilePath" then file else tag_value ds tag)
            (firstn i tags)) ++
     PyStr.split ";" (if String.eqb tag_str "FilePath" then file
                      else tag_value ds tag_str) ++ rest)%list /\
    List.length
      (flat_map (PyStr.split ";")
         (map (fun tag => if String.eqb tag "FilePath" then file else tag_value ds tag)
              (firstn i tags))) = column_of tags file i.
Proof.
  intros Hi.
  rewrite split_join by (unfold record_cells; destruct tags; discriminate).
  unfold record_cells, column_of.
  destruct (skipn_nth_error tags i tag_str Hi) as [rest Hskip].
  set (f := fun tag => if String.eqb tag "FilePath" then file else tag_value ds tag).
  assert (Hmap : map f tags = (map f (firstn i tags) ++ f tag_str :: map f rest)%list).
  { rewrite <- (firstn_skipn i tags) at 1. rewrite Hskip, map_app. reflexivity. }
  rewrite Hmap. exists (flat_map (PyStr.split ";") (map f rest ++ [file])). split.
  - rewrite <- app_assoc, flat_map_app. reflexivity.
  - unfold f. rewrite flat_split_length. f_equal.
    apply firstn_length_le. apply Nat.lt_le_incl. apply nth_error_Some. congruence.
Qed.

(** The column of a field that is not named [FilePath]. *)
Lemma record_column ds tags file i tag_str :
  nth_error tags i = Some tag_str ->
  String.eqb tag_str "FilePath" = false ->
  nth (column_of tags file i)
      (PyStr.split ";" (PyStr.join ";" (record_cells ds tags file))) "" =
  tag_value ds tag_str.
Proof.
  intros Hi Hname.
  destruct (record_column_at ds tags file i tag_str Hi) as (rest & -> & Hlen).
  rewrite Hname, (split_clean ";" (tag_value ds tag_str)) by apply tag_value_clean.
  rewrite app_nth2; rewrite Hlen; [|lia]. now rewrite Nat.sub_diag.
Qed.

(** The column of a field named [FilePath], for a path without [;]. *)
Lemma record_column_path ds tags file i :
  nth_error tags i = Some "FilePath" ->
  PyStr.count ";" file = 0 ->
  nth (column_of tags file i)
      (PyStr.split ";" (PyStr.join ";" (record_cells ds tags file))) "" = file.
Proof.
  intros Hi Hfile.
  destruct (record_column_at ds tags file i "FilePath" Hi) as (rest & -> & Hlen).
  rewrite String.eqb_refl, (split_clean ";" file) by exact Hfile.
  rewrite app_nth2; rewrite Hlen; [|lia]. now rewrite Nat.sub_diag.
Qed.

(** ** The table: claims about one record *)

(** The column of an extracted value in the appended line. *)
Lemma extracted_column env (tags : dict) out file ds w i tag_str tag v :
  env_dcmread env file = Ok ds ->
  nth_error (dict_keys tags) i = Some tag_str ->
  convert_string_to_tag tag_str = Ok tag ->
  Pydicom.get_value ds tag = Ok (Some (Pydicom.PyObj v)) ->
  exists line,
    fst (process_file env tags out file w) = Val tt /\
    written (snd (process_file env tags out file w)) out = written w out ++ line ++ nl /\
    nth (column_of (dict_keys tags) file i) (PyStr.split ";" line) "" =
      PyStr.replace ";" "," v.
Proof.
  intros Hread Hi Htag Hget.
  assert (Hds : ds <> []) by exact (get_value_some_nonempty _ _ _ Hget).
  assert (Htags : tags <> [])
    by exact (dict_keys_nonempty _ (nth_error_some_nonempty _ _ _ Hi)).
  destruct (process_file_spec env tags out file ds w Hread Hds Htags) as [l Hrun].
  exists (PyStr.join ";" (record_cells ds (dict_keys tags) file)).
  rewrite Hrun. split; [reflexivity|]. split.
  - unfold written at 1, wrote. simpl. apply dict_get_set_same.
  - rewrite (record_column ds _ file i tag_str Hi (convert_ok_not_FilePath _ _ Htag)).
    unfold tag_value. now rewrite Htag, Hget.
Qed.

(** In the line appended for a file that reads as a data set with at
    least one element, the column of a field not named [FilePath] depends
    on that field and the data set alone.  It is empty when the
    identifier is malformed, when the identifier is absent from the data
    set, when the element holds [None] and when reading the element
    raises; it is [str(V)] when the element holds a value [V] without the
    delimiter.  The column of the field of index [i] is the [i]-th,
    moved right by the [;] of the path for each field named [FilePath]
    before it; a field named [FilePath] holds the path. *)
Theorem field_failures_are_local env (tags : dict) out file ds w :
  env_dcmread env file = Ok ds -> ds <> [] -> tags <> [] ->
  exists line,
    fst (process_file env tags out file w) = Val tt /\
    written (snd (process_file env tags out file w)) out = written w out ++ line ++ nl /\
    forall i tag_str,
      nth_error (dict_keys tags) i = Some tag_str ->
      (tag_str = "FilePath" -> PyStr.count ";" file = 0 ->
       nth (column_of (dict_keys tags) file i) (PyStr.split ";" line) "" = file) /\
      (tag_str <> "FilePath" ->
       (forall e, convert_string_to_tag tag_str = Err e ->
          nth (column_of (dict_keys tags) file i) (PyStr.split ";" line) "" = "") /\
       (forall tag, convert_string_to_tag tag_str = Ok tag ->
          Pydicom.get_value ds tag = Ok None ->
          nth (column_of (dict_keys tags) file i) (PyStr.split ";" line) "" = "") /\
       (forall tag, convert_string_to_tag tag_str = Ok tag ->
          Pydicom.get_value ds tag = Ok (Some Pydicom.PyNone) ->
          nth (column_of (dict_keys tags) file i) (PyStr.split ";" line) "" = "") /\
       (forall tag e, convert_string_to_tag tag_str = Ok tag ->
          Pydicom.get_value ds tag = Err e ->
          nth (column_of (dict_keys tags) file i) (PyStr.split ";" line) "" = "") /\
       (forall tag v, convert_string_to_tag tag_str = Ok tag ->
          Pydicom.get_value ds tag = Ok (Some (Pydicom.PyObj v)) ->
          PyStr.count ";" v = 0 ->
          nth (column_of (dict_keys tags) file i) (PyStr.split ";" line) "" =
            Pydicom.str (Pydicom.PyObj v))).
Proof.
  intros Hread Hds Htags.
  destruct (process_file_spec env tags out file ds w Hread Hds Htags) as [l Hrun].
  exists (PyStr.join ";" (record_cells ds (dict_keys tags) file)).
  rewrite Hrun. split; [reflexivity|]. split.
  { unfold written at 1, wrote. simpl. apply dict_get_set_same. }
  intros i tag_str Hi. split.
  - intros -> Hfile. now apply record_column_path.
  - intros Hname.
    assert (E : String.eqb tag_str "FilePath" = false).
    { destruct (String.eqb tag_str "FilePath") eqn:E; [|reflexivity].
      apply String.eqb_eq in E. contradiction. }
    rewrite (record_column ds _ file i tag_str Hi E). unfold tag_value.
    split; [intros e He; now rewrite He|].
    split; [intros tag Htag Hget; now rewrite Htag, Hget|].
    split; [intros tag Htag Hget; now rewrite Htag, Hget|].
    split; [intros tag e Htag Hget; now rewrite Htag, Hget|].
    intros tag v Htag Hget Hv. rewrite Htag, Hget. now apply replace_absent.
Qed.

Lemma field_failures_are_local_witness :
  exists line,
    written (snd (process_file
                    (study_env three_files "study/b.dcm" scan (TagsDocument two_tags))
                    two_tags_dict "results/study.csv" "study/a.dcm" study_world))
            "results/study.csv" = line ++ nl /\
    nth 0 (PyStr.split ";" line) "" = "MR" /\
    nth 1 (PyStr.split ";" line) "" = "".
Proof.
  assert (Hds : scan <> []) by discriminate.
  assert (Htags : two_tags_dict <> []) by discriminate.
  destruct (field_failures_are_local
              (study_env three_files "study/b.dcm" scan (TagsDocument two_tags))
              two_tags_dict "results/study.csv" "study/a.dcm" scan study_world
              eq_refl Hds Htags)
    as (line & _ & Hwritten & Hcells).
  exists line. split; [exact Hwritten|]. split.
  - destruct (Hcells 0 "(0008,0060)" eq_refl) as (_ & Hfield).
    assert (Hname : "(0008,0060)" <> "FilePath") by discriminate.
    destruct (Hfield Hname) as (_ & _ & _ & _ & Hvalue).
    exact (Hvalue 524384%Z "MR" eq_refl eq_refl eq_refl).
  - destruct (Hcells 1 "(0010,0010)" eq_refl) as (_ & Hfield).
    assert (Hname : "(0010,0010)" <> "FilePath") by discriminate.
    destruct (Hfield Hname) as (_ & Habsent & _).
    exact (Habsent 1048592%Z eq_refl eq_refl).
Defined.

(** C6 (the code departs from the claim).  A field named [FilePath] has
    a malformed identifier: line 171 gives it the empty string, and
    line 176 then stores the path of the file under the same key, so its
    column in the line is the path and not the empty string.  A file that
    reads as a data set without elements is given up at the debug call of
    line 159 before any field is looked at: a field absent from it gets
    no empty column, the file gets no line. *)
Theorem FilePath_field_gets_the_path :
  let env := study_env three_files "study/b.dcm" scan (TagsDocument two_tags) in
  convert_string_to_tag "FilePath" = Err ValueError /\
  process_file env [("FilePath", "Path")] "results/study.csv" "study/a.dcm" study_world =
    (Val tt,
     wrote study_world "results/study.csv"
           (PyStr.join ";" ["study/a.dcm"; "study/a.dcm"] ++ nl)
           [(DEBUG, MsgFirstKeys 524384%Z "FilePath");
            (WARNING, MsgTagFailed "FilePath" ValueError);
            (DEBUG, MsgExtracted "study/a.dcm" [("FilePath", "")]);
            (DEBUG, MsgProcessed "study/a.dcm")]) /\
  written (snd (process_file env [("FilePath", "Path")] "results/study.csv"
                             "study/a.dcm" study_world)) "results/study.csv" =
    "study/a.dcm;study/a.dcm" ++ nl /\
  nth 0 (PyStr.split ";" "study/a.dcm;study/a.dcm") "" = "study/a.dcm" /\
  "study/a.dcm" <> "" /\
  env_dcmread env "study/empty.dcm" = Ok [] /\
  process_file env two_tags_dict "results/study.csv" "study/empty.dcm" study_world =
    (Val tt, add_log study_world [(ERROR, MsgReadError "study/empty.dcm" IndexError)]) /\
  read_file (snd (process_file env two_tags_dict "results/study.csv"
                               "study/empty.dcm" study_world)) "results/study.csv" = None.
Proof.
  cbv zeta. repeat split; try (vm_compute; reflexivity). discriminate.
Qed.

(** C7.  When a field is found with a value whose display string is [v],
    the column of the field in the line appended to the table has the
    length of [v] and holds [,] wherever [v] holds [;]: for the value
    [A;B] the column reads [A,B].  The column of the field of index [i]
    is the [i]-th, moved right by the [;] of the path for each field
    named [FilePath] before it. *)
Theorem semicolons_become_commas env (tags : dict) out file ds w i tag_str tag v :
  env_dcmread env file = Ok ds ->
  nth_error (dict_keys tags) i = Some tag_str ->
  convert_string_to_tag tag_str = Ok tag ->
  Pydicom.get_value ds tag = Ok (Some (Pydicom.PyObj v)) ->
  exists line,
    fst (process_file env tags out file w) = Val tt /\
    written (snd (process_file env tags out file w)) out = written w out ++ line ++ nl /\
    String.length (nth (column_of (dict_keys tags) file i) (PyStr.split ";" line) "") =
      String.length v /\
    (forall n, String.get n v = Some ";"%char ->
       String.get n (nth (column_of (dict_keys tags) file i) (PyStr.split ";" line) "") =
       Some ","%char) /\
    (forall n, String.get n (nth (column_of (dict_keys tags) file i)
                                 (PyStr.split ";" line) "") <> Some ";"%char) /\
    (v = "A;B" ->
     nth (column_of (dict_keys tags) file i) (PyStr.split ";" line) "" = "A,B").
Proof.
  intros Hread Hi Htag Hget.
  destruct (extracted_column env tags out file ds w i tag_str tag v Hread Hi Htag Hget)
    as (line & Hval & Hwritten & Hcell).
  exists line. split; [exact Hval|]. split; [exact Hwritten|]. rewrite Hcell.
  split; [apply replace_length|]. split; [|split].
  - intros n Hn. rewrite replace_get, Hn. reflexivity.
  - intros n. rewrite replace_get. destruct (String.get n v) as [c|]; simpl.
    + destruct (Ascii.eqb c ";") eqn:E; [discriminate|].
      intro H. injection H as ->. discriminate.
    + discriminate.
  - intros ->. reflexivity.
Qed.

Lemma semicolons_become_commas_witness :
  let env := study_env three_files "study/b.dcm" scan_semicolon (TagsDocument two_tags) in
  let tags := [("FilePath", "Path"); ("(0008,0060)", "Modality")] in
  column_of (dict_keys tags) "study/a;b.dcm" 1 = 2 /\
  exists line,
    written (snd (process_file env tags "results/study.csv" "study/a;b.dcm" study_world))
            "results/study.csv" = line ++ nl /\
    nth 2 (PyStr.split ";" line) "" = "A,B".
Proof.
  cbv zeta. split; [reflexivity|].
  destruct (semicolons_become_commas
              (study_env three_files "study/b.dcm" scan_semicolon (TagsDocument two_tags))
              [("FilePath", "Path"); ("(0008,0060)", "Modality")]
              "results/study.csv" "study/a;b.dcm" scan_semicolon
              study_world 1 "(0008,0060)" 524384%Z "A;B"
              eq_refl eq_refl eq_refl eq_refl)
    as (line & _ & Hwritten & _ & _ & _ & HAB).
  exists line. split; [exact Hwritten|exact (HAB eq_refl)].
Defined.



(** ** The table: claims about a run *)

(** C1 (the code departs from the claim).  The folder holds three
    matching files, one of them corrupt, and the tag document has two
    fields, the first in every readable file and the second in none.  The
    run finds the three files, raises [ValueError] at the debug call
    [random.sample(dicom_files, 10)] of line 128, reports a failure and
    leaves no table: not the header and two lines the claim expects. *)
Theorem three_files_no_table :
  let env := study_env three_files "study/b.dcm" scan (TagsDocument two_tags) in
  found_files env "study" (started study_world) =
    ["study/a.dcm"; "study/b.dcm"; "study/c.dcm"] /\
  env_dcmread env "study/b.dcm" = Err InvalidDicomError /\
  fst (main env first_k study_args (started study_world)) = Raise ValueError /\
  fst (script env first_k study_args study_world) = false /\
  read_file (snd (script env first_k study_args study_world)) "results/study.csv" = None.
Proof. cbv zeta. repeat split; vm_compute; reflexivity. Qed.

(** C2 (the code departs from the claim).  With two fields a line should
    have three columns.  The path of the file is written as it is, so the
    line of [study/a;b.dcm] has four. *)
Theorem semicolon_in_path_adds_column :
  let env := study_env ten_files_semicolon "" scan (TagsDocument two_tags) in
  let run := script env first_k study_args study_world in
  exists table,
    fst run = true /\
    read_file (snd run) "results/study.csv" = Some table /\
    nth 0 (PyStr.split "010" table) "" = "(0008,0060);(0010,0010);FilePath" /\
    nth 1 (PyStr.split "010" table) "" = "MR;;study/a;b.dcm" /\
    columns (nth 1 (PyStr.split "010" table) "") = 4 /\
    S (List.length two_tags_dict) = 3.
Proof.
  cbv zeta. eexists. split; [vm_compute; reflexivity|].
  split; [vm_compute; reflexivity|].
  repeat split; vm_compute; reflexivity.
Qed.

(** C3 (the code departs from the claim).  The shared folder exists and
    holds ten files, the folder [results] of the default destination does
    not exist.  The run creates no directory, [open] raises
    [FileNotFoundError] and the run reports a failure without a table.
    From the world where [results] exists the same run succeeds. *)
Theorem missing_results_folder_fails :
  let env := study_env ten_files "" scan (TagsDocument two_tags) in
  let run := script env first_k study_args bare_world in
  is_dir bare_world "results" = false /\
  fst (main env first_k study_args (started bare_world)) = Raise FileNotFoundError /\
  fst run = false /\
  fs_dirs (snd run) = ["study"] /\
  read_file (snd run) "results/study.csv" = None /\
  fst (script env first_k study_args study_world) = true.
Proof. cbv zeta. repeat split; vm_compute; reflexivity. Qed.

(** C4 (the code departs from the claim).  A run that finds no file, a run
    without the tag document and a run whose tag document is not JSON log
    an error, return 1 from [main] and are reported as completed
    successfully, exactly as the run that writes the whole table.  Only an
    exception, as from a destination that cannot be opened, is reported
    as a failure. *)
Theorem fatal_errors_report_success :
  let complete := study_env ten_files "" scan (TagsDocument two_tags) in
  let no_file := study_env [] "" scan (TagsDocument two_tags) in
  let no_document := study_env ten_files "" scan TagsAbsent in
  let not_json := study_env ten_files "" scan TagsMalformed in
  fst (main complete first_k study_args (started study_world)) = Return 1%Z /\
  fst (script complete first_k study_args study_world) = true /\
  fst (main no_file first_k study_args (started study_world)) = Return 1%Z /\
  script no_file first_k study_args study_world =
    (true,
     add_log study_world
       [(INFO, MsgStarting); (INFO, MsgSharedFolderPath "study");
        (INFO, MsgSharedFolder "study");
        (INFO, MsgOutputDirectory "results/study.csv");
        (INFO, MsgListing); (ERROR, MsgNoDicomFiles);
        (INFO, MsgCompletedSuccessfully); (INFO, MsgCompletedIn 1%Z)]) /\
  fst (main no_document first_k study_args (started study_world)) = Return 1%Z /\
  fst (script no_document first_k study_args study_world) = true /\
  fst (main not_json first_k study_args (started study_world)) = Return 1%Z /\
  fst (script not_json first_k study_args study_world) = true /\
  fst (script complete first_k study_args bare_world) = false.
Proof. cbv zeta. repeat split; vm_compute; reflexivity. Qed.

(** C5.  When the run reaches the discovery and the discovery finds no
    file, [main] logs the error and returns before the destination is
    opened: the files are those from before the run, and so is what is
    at the destination. *)
Theorem no_files_no_table env ch args w output_dir w1 :
  prepare args (started w) = (Val output_dir, w1) ->
  fst (list_dicom_files env (path_shared_folder args) w1) = Val [] ->
  main env ch args (started w) =
    (Return 1%Z, add_log w1 [(INFO, MsgListing); (ERROR, MsgNoDicomFiles)]) /\
  fs_files (snd (script env ch args w)) = fs_files w /\
  read_file (snd (script env ch args w)) output_dir = read_file w output_dir.
Proof.
  intros Hprep Hnone.
  rewrite list_dicom_files_spec in Hnone. simpl in Hnone.
  assert (Hfound : found_files env (path_shared_folder args) w1 = []) by congruence.
  assert (Hmain : main env ch args (started w) =
            (Return 1%Z, add_log w1 [(INFO, MsgListing); (ERROR, MsgNoDicomFiles)])).
  { rewrite (main_after_prepare _ _ _ _ _ _ Hprep).
    unfold bind at 1. rewrite logger_add_log.
    unfold bind at 1. rewrite list_dicom_files_spec, found_files_add_log, Hfound.
    unfold bind, py_return. rewrite logger_add_log. now rewrite add_log_add_log. }
  assert (Hfiles : fs_files (snd (script env ch args w)) = fs_files w).
  { destruct (script_world env ch args w) as [l ->].
    rewrite Hmain. simpl. exact (prepare_started_files _ _ _ _ Hprep). }
  split; [exact Hmain|]. split; [exact Hfiles|].
  now apply read_file_same_files.
Qed.

Lemma no_files_no_table_witness :
  let env := study_env ["notes.txt"] "" scan (TagsDocument two_tags) in
  let w1 := add_log study_world
              [(INFO, MsgStarting); (INFO, MsgSharedFolderPath "study");
               (INFO, MsgSharedFolder "study");
               (INFO, MsgOutputDirectory "results/study.csv")] in
  prepare study_args (started study_world) = (Val "results/study.csv", w1) /\
  fst (list_dicom_files env "study" w1) = Val [] /\
  main env first_k study_args (started study_world) =
    (Return 1%Z, add_log w1 [(INFO, MsgListing); (ERROR, MsgNoDicomFiles)]) /\
  fs_files (snd (script env first_k study_args study_world)) = [] /\
  read_file (snd (script env first_k study_args study_world)) "results/study.csv" = None.
Proof.
  cbv zeta.
  assert (Hprep : prepare study_args (started study_world) =
            (Val "results/study.csv",
             add_log study_world
               [(INFO, MsgStarting); (INFO, MsgSharedFolderPath "study");
                (INFO, MsgSharedFolder "study");
                (INFO, MsgOutputDirectory "results/study.csv")]))
    by (vm_compute; reflexivity).
  assert (Hnone : fst (list_dicom_files
                         (study_env ["notes.txt"] "" scan (TagsDocument two_tags))
                         (path_shared_folder study_args)
                         (add_log study_world
                            [(INFO, MsgStarting); (INFO, MsgSharedFolderPath "study");
                             (INFO, MsgSharedFolder "study");
                             (INFO, MsgOutputDirectory "results/study.csv")])) = Val [])
    by (vm_compute; reflexivity).
  split; [exact Hprep|]. split; [exact Hnone|].
  exact (no_files_no_table
           (study_env ["notes.txt"] "" scan (TagsDocument two_tags))
           first_k study_args study_world "results/study.csv" _ Hprep Hnone).
Defined.

(** C9.  When the run reaches the discovery and the discovery finds at
    least one and fewer than ten files, [random.sample(dicom_files, 10)]
    raises [ValueError]: [main] ends there, the script reports a failure,
    the destination was not opened and the files are those from before
    the run. *)
Theorem few_files_abort env ch args w output_dir w1 files :
  prepare args (started w) = (Val output_dir, w1) ->
  fst (list_dicom_files env (path_shared_folder args) w1) = Val files ->
  1 <= List.length files < 10 ->
  main env ch args (started w) =
    (Raise ValueError,
     add_log w1 [(INFO, MsgListing); (INFO, MsgFound (List.length files))]) /\
  fst (script env ch args w) = false /\
  fs_files (snd (script env ch args w)) = fs_files w /\
  read_file (snd (script env ch args w)) output_dir = read_file w output_dir.
Proof.
  intros Hprep Hsome [Hlo Hhi].
  rewrite list_dicom_files_spec in Hsome. simpl in Hsome.
  assert (Hfound : found_files env (path_shared_folder args) w1 = files) by congruence.
  assert (Hmain : main env ch args (started w) =
            (Raise ValueError,
             add_log w1 [(INFO, MsgListing); (INFO, MsgFound (List.length files))])).
  { rewrite (main_after_prepare _ _ _ _ _ _ Hprep).
    unfold bind at 1. rewrite logger_add_log.
    unfold bind at 1. rewrite list_dicom_files_spec, found_files_add_log, Hfound.
    destruct files as [|f files']; [simpl in Hlo; lia|].
    unfold bind at 1. unfold ret at 1.
    unfold bind at 1. rewrite logger_add_log.
    unfold bind at 1. unfold random_sample.
    assert (Hlt : Nat.ltb (List.length (f :: files')) 10 = true)
      by (apply Nat.ltb_lt; exact Hhi).
    rewrite Hlt. unfold py_raise. now rewrite add_log_add_log. }
  assert (Hfiles : fs_files (snd (script env ch args w)) = fs_files w).
  { destruct (script_world env ch args w) as [l ->].
    rewrite Hmain. simpl. exact (prepare_started_files _ _ _ _ Hprep). }
  split; [exact Hmain|]. split.
  - rewrite script_status. now rewrite Hmain.
  - split; [exact Hfiles|]. now apply read_file_same_files.
Qed.

Lemma few_files_abort_witness :
  let env := study_env three_files "study/b.dcm" scan (TagsDocument two_tags) in
  let w1 := add_log study_world
              [(INFO, MsgStarting); (INFO, MsgSharedFolderPath "study");
               (INFO, MsgSharedFolder "study");
               (INFO, MsgOutputDirectory "results/study.csv")] in
  let files := ["study/a.dcm"; "study/b.dcm"; "study/c.dcm"] in
  prepare study_args (started study_world) = (Val "results/study.csv", w1) /\
  fst (list_dicom_files env "study" w1) = Val files /\
  1 <= List.length files < 10 /\
  main env first_k study_args (started study_world) =
    (Raise ValueError,
     add_log w1 [(INFO, MsgListing); (INFO, MsgFound (List.length files))]) /\
  fst (script env first_k study_args study_world) = false /\
  fs_files (snd (script env first_k study_args study_world)) = [] /\
  read_file (snd (script env first_k study_args study_world)) "results/study.csv" = None.
Proof.
  cbv zeta.
  assert (Hprep : prepare study_args (started study_world) =
            (Val "results/study.csv",
             add_log study_world
               [(INFO, MsgStarting); (INFO, MsgSharedFolderPath "study");
                (INFO, MsgSharedFolder "study");
                (INFO, MsgOutputDirectory "results/study.csv")]))
    by (vm_compute; reflexivity).
  assert (Hsome : fst (list_dicom_files
                         (study_env three_files "study/b.dcm" scan (TagsDocument two_tags))
                         (path_shared_folder study_args)
                         (add_log study_world
                            [(INFO, MsgStarting); (INFO, MsgSharedFolderPath "study");
                             (INFO, MsgSharedFolder "study");
                             (INFO, MsgOutputDirectory "results/study.csv")])) =
                  Val ["study/a.dcm"; "study/b.dcm"; "study/c.dcm"])
    by (vm_compute; reflexivity).
  assert (Hlen : 1 <= List.length ["study/a.dcm"; "study/b.dcm"; "study/c.dcm"] < 10)
    by (simpl; lia).
  split; [exact Hprep|]. split; [exact Hsome|]. split; [exact Hlen|].
  exact (few_files_abort
           (study_env three_files "study/b.dcm" scan (TagsDocument two_tags))
           first_k study_args study_world "results/study.csv" _ _ Hprep Hsome Hlen).
Defined.

(** C8.  Two runs on the same arguments, tag document and files end with
    the same status and leave the same files with the same contents,
    whatever their random generators and clocks: nothing of the clock
    reaches the table. *)
Theorem rerun_same_table env args ch1 ch2 w :
  fst (script env ch1 args w) = fst (script env ch2 args w) /\
  fs_dirs (snd (script env ch1 args w)) = fs_dirs (snd (script env ch2 args w)) /\
  fs_files (snd (script env ch1 args w)) = fs_files (snd (script env ch2 args w)) /\
  forall p, read_file (snd (script env ch1 args w)) p =
            read_file (snd (script env ch2 args w)) p.
Proof.
  assert (Hw : same_fs (started w) (started w)) by (split; reflexivity).
  destruct (sim_main env ch1 ch2 args _ _ Hw) as [Hc [Hd Hf]].
  assert (H : fst (script env ch1 args w) = fst (script env ch2 args w) /\
              fs_dirs (snd (script env ch1 args w)) =
              fs_dirs (snd (script env ch2 args w)) /\
              fs_files (snd (script env ch1 args w)) =
              fs_files (snd (script env ch2 args w))).
  { unfold script. change (snd (logger INFO MsgStarting w)) with (started w).
    destruct (main env ch1 args (started w)) as [[a|x|e] w1],
             (main env ch2 args (started w)) as [[b|y|f] w2];
      simpl in *; try contradiction; auto. }
  destruct H as (H1 & H2 & H3). split; [exact H1|]. split; [exact H2|].
  split; [exact H3|]. intro p. now apply read_file_same_files.
Qed.

(** ** Statements that keep a relation between the worlds *)

Section Keeps.

Variable R : World -> World -> Prop.
Hypothesis R_refl : forall w, R w w.
Hypothesis R_trans : forall w1 w2 w3, R w1 w2 -> R w2 w3 -> R w1 w3.
Hypothesis R_log : forall w l, R w (add_log w l).

Lemma keeps_ret {A} (a : A) : keeps R (ret a).
Proof. intro w. apply R_refl. Qed.

Lemma keeps_return {A} z : keeps R (@py_return A z).
Proof. intro w. apply R_refl. Qed.

Lemma keeps_raise {A} e : keeps R (@py_raise A e).
Proof. intro w. apply R_refl. Qed.

Lemma keeps_lift {A} (r : Res A) : keeps R (lift r).
Proof. destruct r; [apply keeps_ret|apply keeps_raise]. Qed.

Lemma keeps_logger lvl msg : keeps R (logger lvl msg).
Proof. intro w. rewrite logger_add_log. apply R_log. Qed.

Lemma keeps_bind {A B} (m : M A) (k : A -> M B) :
  keeps R m -> (forall a, keeps R (k a)) -> keeps R (bind m k).
Proof.
  intros Hm Hk w. unfold bind. specialize (Hm w).
  destruct (m w) as [[a|z|e] w']; simpl in *; auto.
  eapply R_trans; [exact Hm|apply Hk].
Qed.

Lemma keeps_try_except {A} (body : M A) handler :
  keeps R body -> (forall e, keeps R (handler e)) -> keeps R (try_except body handler).
Proof.
  intros Hb Hh w. unfold try_except. specialize (Hb w).
  destruct (body w) as [[a|z|e] w']; simpl in *; auto.
  eapply R_trans; [exact Hb|apply Hh].
Qed.

Lemma keeps_for_each {A} (l : list A) (body : A -> M unit) :
  (forall x, keeps R (body x)) -> keeps R (for_each l body).
Proof.
  intros H. induction l as [|x l IH]; simpl.
  - apply keeps_ret.
  - apply keeps_bind; auto.
Qed.

Lemma keeps_extract_tags ds tags : forall data, keeps R (extract_tags ds tags data).
Proof.
  induction tags as [|t tags IH]; intro data; simpl.
  - apply keeps_ret.
  - apply keeps_bind; [|intro; apply IH].
    unfold extract_tag. apply keeps_bind; [|intro; apply keeps_ret].
    apply keeps_try_except.
    + apply keeps_bind; [apply keeps_lift|intro].
      apply keeps_bind; [apply keeps_lift|intro; apply keeps_ret].
    + intro. apply keeps_bind; [apply keeps_logger|intro; apply keeps_ret].
Qed.

Lemma keeps_process_file env tags out file :
  (forall s, keeps R (file_write out s)) ->
  keeps R (process_file env tags out file).
Proof.
  intros Hwrite. unfold process_file. apply keeps_try_except.
  - apply keeps_bind; [apply keeps_lift|intro].
    apply keeps_bind; [apply keeps_lift|intro].
    apply keeps_bind; [apply keeps_lift|intro].
    apply keeps_bind; [apply keeps_logger|intro].
    apply keeps_bind; [apply keeps_extract_tags|intro].
    apply keeps_bind; [apply keeps_logger|intro].
    apply keeps_bind; [apply Hwrite|intro]. apply keeps_logger.
  - intro. apply keeps_logger.
Qed.

Lemma keeps_unchanged {A} (m : M A) : (forall w, snd (m w) = w) -> keeps R m.
Proof. intros H w. rewrite H. apply R_refl. Qed.

Lemma keeps_list_dicom_files env path : keeps R (list_dicom_files env path).
Proof. apply keeps_unchanged. reflexivity. Qed.

Lemma keeps_random_sample ch population k : keeps R (random_sample ch population k).
Proof.
  unfold random_sample. destruct (Nat.ltb _ _); [apply keeps_raise|apply keeps_ret].
Qed.

Lemma keeps_load_tags env : keeps R (load_tags env).
Proof.
  unfold load_tags. destruct (env_tags env).
  - apply keeps_bind; [apply keeps_logger|intro; apply keeps_return].
  - apply keeps_raise.
  - apply keeps_bind; [apply keeps_logger|intro; apply keeps_return].
  - apply keeps_bind; [apply keeps_lift|intro].
    apply keeps_bind; [apply keeps_logger|intro; apply keeps_ret].
Qed.

(** What [main] does after [prepare] keeps the relation as soon as
    opening and writing the destination do. *)
Lemma keeps_main_after_prepare env ch args w output_dir w1 :
  prepare args w = (Val output_dir, w1) ->
  keeps R (open_w output_dir) ->
  (forall s, keeps R (file_write output_dir s)) ->
  R w1 (snd (main env ch args w)).
Proof.
  intros Hprep Hopen Hwrite. rewrite (main_after_prepare _ _ _ _ _ _ Hprep).
  match goal with |- R _ (snd (?m _)) => cut (keeps R m); [intro K; apply K|] end.
  apply keeps_bind; [apply keeps_logger|intro].
  apply keeps_bind; [apply keeps_list_dicom_files|intro dicom_files].
  apply keeps_bind.
  { destruct dicom_files; [|apply keeps_ret].
    apply keeps_bind; [apply keeps_logger|intro; apply keeps_return]. }
  intro. apply keeps_bind; [apply keeps_logger|intro].
  apply keeps_bind; [apply keeps_random_sample|intro].
  apply keeps_bind; [apply keeps_logger|intro].
  apply keeps_bind; [apply keeps_load_tags|intro selected_tags].
  apply keeps_bind; [apply keeps_logger|intro].
  apply keeps_bind; [apply keeps_logger|intro].
  apply keeps_bind; [apply keeps_logger|intro].
  apply keeps_bind; [apply Hopen|intro].
  apply keeps_bind; [apply keeps_lift|intro].
  apply keeps_bind; [apply Hwrite|intro].
  apply keeps_bind; [apply keeps_logger|intro].
  apply keeps_bind; [apply keeps_logger|intro].
  apply keeps_bind; [apply keeps_logger|intro].
  destruct selected_tags; try apply keeps_raise.
  apply keeps_bind; [|intro].
  - apply keeps_for_each. intro. now apply keeps_process_file.
  - apply keeps_bind; [apply keeps_ret|intro; apply keeps_return].
Qed.

End Keeps.

(** ** Directories *)

Lemma prepare_existing args w :
  is_dir w (path_shared_folder args) = true ->
  exists output_dir l, prepare args w = (Val output_dir, add_log w l).
Proof.
  intros Hdir. unfold prepare, bind at 1.
  destruct (resolve_output_spec args w) as (o & l & ->).
  unfold bind, logger, os_path_exists. simpl.
  change (is_dir _ (path_shared_folder args)) with (is_dir w (path_shared_folder args)).
  rewrite Hdir. simpl. eexists o, _. unfold ret, add_log. simpl.
  rewrite <- !app_assoc. reflexivity.
Qed.

Lemma same_dirs_open_w p : keeps same_dirs (open_w p).
Proof.
  intro w. unfold same_dirs, open_w.
  destruct (String.eqb p ""); auto. destruct (is_dir w p); auto.
  destruct (_ || _); auto. destruct (is_file w _); auto.
Qed.

Lemma same_dirs_file_write p s : keeps same_dirs (file_write p s).
Proof. intro w. reflexivity. Qed.

(** When the shared folder exists, [main] creates no directory: line 119
    is its only call that creates one, and it is reached only when the
    shared folder is missing.  (The directory [logs] is created by the
    module-level line 33, before [main] is called.) *)
Theorem existing_folder_no_new_directory env ch args w :
  is_dir w (path_shared_folder args) = true ->
  fs_dirs (snd (main env ch args w)) = fs_dirs w.
Proof.
  intros Hdir.
  destruct (prepare_existing args w Hdir) as (out & l1 & Hprep).
  assert (H : same_dirs (add_log w l1) (snd (main env ch args w))).
  { apply (keeps_main_after_prepare same_dirs) with (output_dir := out); auto.
    - intros w0. reflexivity.
    - intros w1 w2 w3 H12 H23. unfold same_dirs in *. congruence.
    - intros w0 l0. reflexivity.
    - apply same_dirs_open_w.
    - intro. apply same_dirs_file_write. }
  exact H.
Qed.

(** ** The files of the world *)

Lemma has_key_dict_set p k v (d : dict) :
  existsb (fun kv => String.eqb (fst kv) p) (dict_set k v d) =
  String.eqb k p || existsb (fun kv => String.eqb (fst kv) p) d.
Proof.
  induction d as [|[k' v'] d IH]; simpl.
  - reflexivity.
  - destruct (String.eqb k' k) eqn:E; simpl.
    + apply String.eqb_eq in E. subst k'.
      destruct (String.eqb k p); reflexivity.
    + rewrite IH. destruct (String.eqb k' p), (String.eqb k p); reflexivity.
Qed.

Lemma prepare_output args w output_dir w1 :
  prepare args w = (Val output_dir, w1) ->
  fst (resolve_output args w) = Val output_dir.
Proof.
  unfold prepare, bind at 1.
  destruct (resolve_output_spec args w) as (o & l & ->).
  unfold bind, logger, os_path_exists. simpl.
  destruct (negb _); simpl.
  - match goal with |- context [os_makedirs ?n ?w'] =>
      destruct (os_makedirs n w') as [[[]| |] w2]
    end; simpl; intro H; inversion H; reflexivity.
  - intro H. inversion H. reflexivity.
Qed.

(** ** Suffixes *)

Lemma length_app_string a b : String.length (a ++ b) = String.length a + String.length b.
Proof. induction a as [|c a IH]; simpl; auto. Qed.

Lemma endswith_refl s : PyStr.endswith s s = true.
Proof.
  destruct s as [|c s]; [reflexivity|].
  cbn [PyStr.endswith]. now rewrite String.eqb_refl.
Qed.

Lemma endswith_app a b suffix :
  PyStr.endswith b suffix = true -> PyStr.endswith (a ++ b) suffix = true.
Proof.
  intros H. induction a as [|c a IH]; [exact H|].
  change (String c a ++ b) with (String c (a ++ b)).
  cbn [PyStr.endswith]. rewrite IH. apply orb_true_r.
Qed.

Lemma endswith_inv s suffix :
  PyStr.endswith s suffix = true -> exists pre, s = pre ++ suffix.
Proof.
  induction s as [|c s IH]; cbn [PyStr.endswith]; intros H.
  - rewrite orb_false_r in H. apply String.eqb_eq in H. subst. now exists "".
  - apply orb_true_iff in H. destruct H as [H|H].
    + apply String.eqb_eq in H. rewrite <- H. now exists "".
    + destruct (IH H) as [pre ->]. now exists (String c pre).
Qed.

Lemma app_same_length_tail a : forall b x y,
  a ++ x = b ++ y -> String.length x = String.length y -> x = y.
Proof.
  induction a as [|c a IH]; intros [|d b] x y H Hlen; simpl in H.
  - exact H.
  - subst x. simpl in Hlen. rewrite length_app_string in Hlen. lia.
  - subst y. simpl in Hlen. rewrite length_app_string in Hlen. lia.
  - injection H as _ H. now apply (IH b).
Qed.

Lemma lower_app a b : PyStr.lower (a ++ b) = PyStr.lower a ++ PyStr.lower b.
Proof. unfold PyStr.lower. induction a as [|c a IH]; simpl; auto. now rewrite IH. Qed.

Lemma csv_is_not_dcm s : PyStr.endswith s ".csv" = true -> is_dcm s = false.
Proof.
  intros H. apply endswith_inv in H. destruct H as [pre ->].
  unfold is_dcm. rewrite lower_app.
  destruct (PyStr.endswith (PyStr.lower pre ++ PyStr.lower ".csv") ".dcm") eqn:E; auto.
  apply endswith_inv in E. destruct E as [pre' E].
  apply app_same_length_tail in E; [discriminate|reflexivity].
Qed.

(** The destination always ends in [.csv], so it is never one of the
    files [list_dicom_files] looks for. *)
Theorem destination_is_csv args w :
  exists output_dir l,
    resolve_output args w = (Val output_dir, add_log w l) /\
    PyStr.endswith output_dir ".csv" = true /\
    is_dcm output_dir = false.
Proof.
  assert (H : exists output_dir l,
            resolve_output args w = (Val output_dir, add_log w l) /\
            PyStr.endswith output_dir ".csv" = true).
  { unfold resolve_output. destruct (output_dir_arg args) as [o|].
    - destruct (PyStr.endswith o ".csv") eqn:E; simpl.
      + exists o, []. rewrite add_log_nil. auto.
      + eexists _, _. split; [reflexivity|]. apply endswith_app. reflexivity.
    - eexists _, []. rewrite add_log_nil. split; [reflexivity|].
      apply endswith_app, endswith_app. reflexivity. }
  destruct H as (o & l & Hrun & Hcsv). exists o, l.
  split; [exact Hrun|]. split; [exact Hcsv|]. now apply csv_is_not_dcm.
Qed.

Lemma is_dcm_join root file : is_dcm file = true -> is_dcm (OsPath.join root file) = true.
Proof.
  intros H. unfold OsPath.join.
  destruct (String.prefix "/" file); auto.
  unfold is_dcm in *. destruct (_ || _).
  - rewrite lower_app. now apply endswith_app.
  - rewrite !lower_app. now apply endswith_app, endswith_app.
Qed.

(** Every path [list_dicom_files] returns ends in [.dcm], whatever the
    case of the letters, and is a name of the listing joined to its
    directory. *)
Theorem listed_files_are_dcm env path w p :
  In p (found_files env path w) ->
  fst (list_dicom_files env path w) = Val (found_files env path w) /\
  is_dcm p = true /\
  exists root names file,
    In (root, names) (env_walk env path) /\ In file names /\
    is_dcm file = true /\ p = OsPath.join root file.
Proof.
  intros Hin. split; [reflexivity|].
  unfold found_files in Hin. apply in_flat_map in Hin.
  destruct Hin as ([root names] & Hentry & Hp). simpl in Hp.
  apply in_map_iff in Hp. destruct Hp as (file & <- & Hfile).
  apply filter_In in Hfile. destruct Hfile as [Hfile Hdcm].
  split; [now apply is_dcm_join|].
  exists root, names, file. repeat split; auto.
  destruct (is_dir w path); [exact Hentry|contradiction].
Qed.

(** ** Tags *)

Lemma land_shiftl_small g e :
  (0 <= e < 65536)%Z -> Z.land (Z.shiftl g 16) e = 0%Z.
Proof.
  intros [Hlo Hhi]. apply Z.bits_inj'. intros n Hn.
  rewrite Z.land_spec, Z.bits_0.
  destruct (Z.ltb_spec n 16) as [Hlt|Hge].
  - rewrite Z.shiftl_spec_low by assumption. reflexivity.
  - destruct (Z.eq_dec e 0) as [->|Hne].
    + rewrite Z.bits_0. apply andb_false_r.
    + rewrite (Z.bits_above_log2 e n); [apply andb_false_r|lia|].
      assert (Z.log2 e < 16)%Z by (apply Z.log2_lt_pow2; lia). lia.
Qed.

Lemma lor_shiftl_small g e :
  (0 <= e < 65536)%Z -> Z.lor (Z.shiftl g 16) e = (65536 * g + e)%Z.
Proof.
  intros He. pose proof (Z.add_lor_land (Z.shiftl g 16) e) as H.
  rewrite (land_shiftl_small g e He), Z.add_0_r in H. rewrite H.
  rewrite Z.shiftl_mul_pow2 by lia. change (2 ^ 16)%Z with 65536%Z. lia.
Qed.

Lemma Tag_ok arg t :
  Pydicom.Tag arg = Ok t ->
  exists g e, arg = [g; e] /\ (0 <= g <= 65535)%Z /\ (0 <= e <= 65535)%Z /\
              t = (65536 * g + e)%Z.
Proof.
  unfold Pydicom.Tag. destruct arg as [|g [|e [|x arg]]]; try discriminate.
  destruct ((g >? 65535) || (e >? 65535))%Z eqn:Hwide; [discriminate|].
  apply orb_false_iff in Hwide. destruct Hwide as [Hg He].
  destruct (Z.lor (Z.shiftl g 16) e <? 0)%Z eqn:Hneg; [discriminate|].
  intro H. injection H as <-.
  apply Z.ltb_ge in Hneg. apply Z.lor_nonneg in Hneg. destruct Hneg as [Hg0 He0].
  apply Z.shiftl_nonneg in Hg0.
  exists g, e. repeat split; try lia.
  apply lor_shiftl_small. lia.
Qed.

Lemma res_map_length {A B} (f : A -> Res B) l : forall ys,
  res_map f l = Ok ys -> List.length ys = List.length l.
Proof.
  induction l as [|x l IH]; simpl; intros ys H.
  - injection H as <-. reflexivity.
  - destruct (f x) as [y|]; [|discriminate]. simpl in H.
    destruct (res_map f l) as [zs|]; [|discriminate]. simpl in H.
    injection H as <-. simpl. now rewrite (IH zs).
Qed.

Lemma int16_error x e : PyStr.int16 x = Err e -> e = ValueError.
Proof.
  unfold PyStr.int16.
  destruct (match PyStr.strip_by PyStr.isspace x with
            | String "+" r => PyStr.unsigned16 r
            | String "-" r => option_map Z.opp (PyStr.unsigned16 r)
            | _ => PyStr.unsigned16 (PyStr.strip_by PyStr.isspace x)
            end); [discriminate|].
  intro H. now injection H.
Qed.

Lemma res_map_int16_error l e : res_map PyStr.int16 l = Err e -> e = ValueError.
Proof.
  induction l as [|x l IH]; simpl; [discriminate|].
  destruct (PyStr.int16 x) as [y|e'] eqn:Hx; simpl.
  - destruct (res_map PyStr.int16 l) as [zs|e'']; simpl; [discriminate|].
    intro H. injection H as <-. now apply IH.
  - intro H. injection H as <-. now apply (int16_error x).
Qed.

(** A tag that [convert_string_to_tag] returns packs a group and an
    element of 16 bits each, which are the numbers of the two tokens of
    the string: the tag is below 2^32 and gives both numbers back. *)
Theorem converted_tag_packs_two_words tag_str t :
  convert_string_to_tag tag_str = Ok t ->
  exists g e,
    res_map PyStr.int16 (PyStr.split "," (PyStr.strip "()" tag_str)) = Ok [g; e] /\
    (0 <= g <= 65535)%Z /\ (0 <= e <= 65535)%Z /\
    t = (65536 * g + e)%Z /\
    (0 <= t < 4294967296)%Z /\
    Z.shiftr t 16 = g /\ Z.land t 65535 = e.
Proof.
  unfold convert_string_to_tag.
  destruct (res_map PyStr.int16 _) as [zs|] eqn:Hmap; simpl; [|discriminate].
  intro H. apply Tag_ok in H. destruct H as (g & e & -> & Hg & He & ->).
  exists g, e. repeat split; try lia.
  - rewrite Z.shiftr_div_pow2 by lia. change (2 ^ 16)%Z with 65536%Z.
    symmetry. apply (Z.div_unique _ _ _ e); lia.
  - change 65535%Z with (Z.ones 16). rewrite Z.land_ones by lia.
    change (2 ^ 16)%Z with 65536%Z.
    symmetry. apply (Z.mod_unique _ _ g e); lia.
Qed.

Lemma converted_tag_packs_two_words_witness :
  exists g e,
    res_map PyStr.int16 (PyStr.split "," (PyStr.strip "()" "(0008,0060)")) = Ok [g; e] /\
    (0 <= g <= 65535)%Z /\ (0 <= e <= 65535)%Z /\
    524384%Z = (65536 * g + e)%Z /\
    (0 <= 524384 < 4294967296)%Z /\
    Z.shiftr 524384 16 = g /\ Z.land 524384 65535 = e.
Proof.
  apply (converted_tag_packs_two_words "(0008,0060)" 524384%Z). reflexivity.
Defined.

(** A string that does not hold exactly one comma between its
    parentheses is no tag: [convert_string_to_tag] raises [ValueError]. *)
Theorem tag_needs_one_comma tag_str :
  PyStr.count "," (PyStr.strip "()" tag_str) <> 1 ->
  convert_string_to_tag tag_str = Err ValueError.
Proof.
  intros Hcount. unfold convert_string_to_tag.
  destruct (res_map PyStr.int16 _) as [zs|e] eqn:Hmap; simpl.
  - apply res_map_length in Hmap. rewrite split_length in Hmap.
    destruct zs as [|g [|e [|x zs]]]; simpl in *; try reflexivity. lia.
  - now rewrite (res_map_int16_error _ _ Hmap).
Qed.

Lemma tag_needs_one_comma_witness :
  PyStr.count "," (PyStr.strip "()" "(0008,0060,0001)") <> 1 /\
  convert_string_to_tag "(0008,0060,0001)" = Err ValueError.
Proof.
  assert (H : PyStr.count "," (PyStr.strip "()" "(0008,0060,0001)") <> 1)
    by (vm_compute; lia).
  split; [exact H|].
  exact (tag_needs_one_comma "(0008,0060,0001)" H).
Defined.

(** ** The rows of the table *)

Lemma app_empty_r_string s : s ++ "" = s.
Proof. induction s as [|c s IH]; simpl; [reflexivity|now rewrite IH]. Qed.

Lemma app_assoc_string a b c : (a ++ b) ++ c = a ++ b ++ c.
Proof. induction a as [|x a IH]; simpl; [reflexivity|now rewrite IH]. Qed.

Lemma is_file_wrote w out s l : is_file (wrote w out s l) out = true.
Proof.
  unfold is_file, wrote. simpl. rewrite has_key_dict_set, String.eqb_refl. reflexivity.
Qed.

Lemma written_wrote w out s l : written (wrote w out s l) out = written w out ++ s.
Proof. unfold written at 1, wrote. simpl. apply dict_get_set_same. Qed.

(** What one turn of the loop over the files does, whatever the file. *)
Lemma process_file_effect env tags out file w :
  exists l,
    fst (process_file env tags out file w) = Val tt /\
    fs_dirs (snd (process_file env tags out file w)) = fs_dirs w /\
    log (snd (process_file env tags out file w)) = (log w ++ l)%list /\
    written (snd (process_file env tags out file w)) out =
      written w out ++ file_row env tags file /\
    (is_file w out = true ->
     is_file (snd (process_file env tags out file w)) out = true) /\
    (forall e, file_error env tags file = Some e ->
               In (ERROR, MsgReadError file e) l /\
               fs_files (snd (process_file env tags out file w)) = fs_files w) /\
    (file_error env tags file = None ->
     exists ds, env_dcmread env file = Ok ds /\ ds <> [] /\ tags <> [] /\
       snd (process_file env tags out file w) =
       wrote w out (PyStr.join ";" (record_cells ds (dict_keys tags) file) ++ nl) l).
Proof.
  unfold file_row, file_error.
  destruct (env_dcmread env file) as [ds|e] eqn:Hread.
  - destruct ds as [|el ds'].
    + exists [(ERROR, MsgReadError file IndexError)].
      assert (Hrun : process_file env tags out file w =
                (Val tt, add_log w [(ERROR, MsgReadError file IndexError)])).
      { unfold process_file, try_except, bind at 1. now rewrite Hread. }
      rewrite Hrun. simpl. rewrite app_empty_r_string.
      do 4 (split; [reflexivity|]). split; [auto|].
      split; [|discriminate].
      intros e' He. injection He as <-. split; [now left|reflexivity].
    + destruct tags as [|t tags'].
      * exists [(ERROR, MsgReadError file IndexError)].
        assert (Hrun : process_file env [] out file w =
                  (Val tt, add_log w [(ERROR, MsgReadError file IndexError)])).
        { unfold process_file, try_except, bind at 1. rewrite Hread.
          destruct el. reflexivity. }
        rewrite Hrun. simpl. rewrite app_empty_r_string.
        do 4 (split; [reflexivity|]). split; [auto|].
        split; [|discriminate].
        intros e' He. injection He as <-. split; [now left|reflexivity].
      * destruct (process_file_spec env (t :: tags') out file (el :: ds') w Hread)
          as [l Hrun]; [discriminate|discriminate|].
        exists l. rewrite Hrun. simpl fst. simpl snd.
        split; [reflexivity|]. split; [reflexivity|]. split; [reflexivity|].
        split; [apply written_wrote|]. split; [intros _; apply is_file_wrote|].
        split; [discriminate|]. intros _.
        exists (el :: ds'). repeat split; auto; discriminate.
  - exists [(ERROR, MsgReadError file e)].
    rewrite (process_file_unreadable env tags out file e w Hread). simpl.
    rewrite app_empty_r_string.
    do 4 (split; [reflexivity|]). split; [auto|].
    split; [|discriminate].
    intros e' He. injection He as <-. split; [now left|reflexivity].
Qed.

(** A turn of the loop never raises and never returns from [main],
    whatever the file, and creates no directory.  When the file is given
    up, because [dcmread] raises or because the data set or the tag
    document is empty, the files are left as they are and an error record
    with the path and the exception is in the log. *)
Theorem file_errors_stay_local env tags out file w :
  fst (process_file env tags out file w) = Val tt /\
  fs_dirs (snd (process_file env tags out file w)) = fs_dirs w /\
  forall e, file_error env tags file = Some e ->
    fs_files (snd (process_file env tags out file w)) = fs_files w /\
    In (ERROR, MsgReadError file e) (log (snd (process_file env tags out file w))).
Proof.
  destruct (process_file_effect env tags out file w)
    as (l & Hval & Hdirs & Hlog & _ & _ & Herr & _).
  split; [exact Hval|]. split; [exact Hdirs|].
  intros e He. destruct (Herr e He) as [Hin Hfiles]. split; [exact Hfiles|].
  rewrite Hlog. apply in_or_app. now right.
Qed.

Lemma file_errors_stay_local_witness :
  let env := study_env three_files "study/b.dcm" scan (TagsDocument two_tags) in
  file_error env two_tags_dict "study/b.dcm" = Some InvalidDicomError /\
  fst (process_file env two_tags_dict "results/study.csv" "study/b.dcm" study_world) =
    Val tt /\
  fs_files (snd (process_file env two_tags_dict "results/study.csv" "study/b.dcm"
                              study_world)) = [] /\
  In (ERROR, MsgReadError "study/b.dcm" InvalidDicomError)
     (log (snd (process_file env two_tags_dict "results/study.csv" "study/b.dcm"
                             study_world))).
Proof.
  cbv zeta. split; [reflexivity|].
  destruct (file_errors_stay_local
              (study_env three_files "study/b.dcm" scan (TagsDocument two_tags))
              two_tags_dict "results/study.csv" "study/b.dcm" study_world)
    as (Hval & _ & Herr).
  split; [exact Hval|]. exact (Herr InvalidDicomError eq_refl).
Defined.



Lemma for_each_effect env tags out files : forall w,
  fst (for_each files (process_file env tags out) w) = Val tt /\
  fs_dirs (snd (for_each files (process_file env tags out) w)) = fs_dirs w /\
  written (snd (for_each files (process_file env tags out) w)) out =
    written w out ++ String.concat "" (map (file_row env tags) files) /\
  (is_file w out = true ->
   is_file (snd (for_each files (process_file env tags out) w)) out = true) /\
  (forall r, In r (log w) ->
             In r (log (snd (for_each files (process_file env tags out) w)))) /\
  (forall file e, In file files -> file_error env tags file = Some e ->
     In (ERROR, MsgReadError file e)
        (log (snd (for_each files (process_file env tags out) w)))).
Proof.
  induction files as [|file files IH]; intro w.
  - simpl. rewrite app_empty_r_string. repeat split; auto. intros f e [].
  - destruct (process_file_effect env tags out file w)
      as (l & Hval & Hdirs & Hlog & Hwritten & Hfile & Herr & _).
    cbn [for_each]. unfold bind.
    destruct (process_file env tags out file w) as [c w1]. simpl in *. subst c.
    destruct (IH w1) as (IHval & IHdirs & IHwritten & IHfile & IHlog & IHerr).
    split; [exact IHval|]. split; [congruence|]. split.
    + rewrite IHwritten, Hwritten, app_assoc_string. f_equal.
      destruct files as [|f2 files2]; simpl.
      * now rewrite app_empty_r_string.
      * reflexivity.
    + split; [auto|]. split.
      * intros r Hr. apply IHlog. rewrite Hlog. apply in_or_app. now left.
      * intros f e [<-|Hin] Hfe.
        -- apply IHlog. rewrite Hlog. apply in_or_app. right.
           exact (proj1 (Herr e Hfe)).
        -- now apply (IHerr f e).
Qed.

(** ** Whole runs *)

Lemma bind_val {A B} (m : M A) (k : A -> M B) w a w' :
  m w = (Val a, w') -> bind m k w = k a w'.
Proof. intros H. unfold bind. now rewrite H. Qed.

Lemma bind_return {A B} (m : M A) (k : A -> M B) w z w' :
  m w = (Return z, w') -> bind m k w = (Return z, w').
Proof. intros H. unfold bind. now rewrite H. Qed.

Lemma bind_raise {A B} (m : M A) (k : A -> M B) w e w' :
  m w = (Raise e, w') -> bind m k w = (Raise e, w').
Proof. intros H. unfold bind. now rewrite H. Qed.

(** With ten files or more, [main] gets past the debug call of line 128
    and goes on with the tag document. *)
Lemma main_reaches_tags env ch args w output_dir w1 files :
  prepare args w = (Val output_dir, w1) ->
  fst (list_dicom_files env (path_shared_folder args) w1) = Val files ->
  10 <= List.length files ->
  main env ch args w = after_sample env output_dir files (sampled ch w1 files).
Proof.
  intros Hprep Hfiles Hlen.
  rewrite list_dicom_files_spec in Hfiles. simpl in Hfiles.
  assert (Hfound : found_files env (path_shared_folder args) w1 = files) by congruence.
  rewrite (main_after_prepare _ _ _ _ _ _ Hprep).
  erewrite bind_val; [|apply logger_add_log].
  erewrite bind_val;
    [|rewrite list_dicom_files_spec, found_files_add_log, Hfound; reflexivity].
  destruct files as [|f files']; [simpl in Hlen; lia|].
  erewrite bind_val; [|reflexivity].
  erewrite bind_val; [|apply logger_add_log].
  assert (Hge : Nat.ltb (List.length (f :: files')) 10 = false)
    by (apply Nat.ltb_ge; exact Hlen).
  erewrite bind_val; [|unfold random_sample; rewrite Hge; reflexivity].
  erewrite bind_val; [|apply logger_add_log].
  rewrite !add_log_add_log. reflexivity.
Qed.

Lemma open_w_ok p w w' :
  fst (open_w p w) = Val tt ->
  fs_dirs w' = fs_dirs w -> fs_files w' = fs_files w ->
  open_w p w' = (Val tt, {| fs_dirs := fs_dirs w';
                            fs_files := dict_set p "" (fs_files w');
                            log := log w' |}).
Proof.
  intros Hok Hd Hf. unfold open_w in *.
  rewrite (is_dir_same_fun w' w Hd).
  assert (Hfile : is_file w' = is_file w) by (unfold is_file; now rewrite Hf).
  rewrite Hfile.
  destruct (String.eqb p ""); [discriminate|].
  destruct (is_dir w p); [discriminate|].
  destruct (_ || _); [reflexivity|].
  destruct (is_file w _); discriminate.
Qed.

Lemma script_of_main env ch args w c w' :
  main env ch args (started w) = (c, w') ->
  fst (script env ch args w) = match c with Raise _ => false | _ => true end /\
  exists l, snd (script env ch args w) = add_log w' l.
Proof.
  intros H. split.
  - rewrite script_status, H. reflexivity.
  - destruct (script_world env ch args w) as [l ->]. rewrite H. now exists l.
Qed.

(** The table of a run that gets through, and the errors it logs. *)
Lemma complete_run env ch args w output_dir w1 files members :
  prepare args (started w) = (Val output_dir, w1) ->
  fst (list_dicom_files env (path_shared_folder args) w1) = Val files ->
  10 <= List.length files ->
  env_tags env = TagsDocument (JsonObject members) ->
  fst (open_w output_dir w1) = Val tt ->
  exists tags w',
    json_load (JsonObject members) = PyDict tags /\
    main env ch args (started w) = (Return 1%Z, w') /\
    fs_dirs w' = fs_dirs w1 /\
    is_file w' output_dir = true /\
    written w' output_dir = table_text env tags files /\
    (forall file e, In file files -> file_error env tags file = Some e ->
                    In (ERROR, MsgReadError file e) (log w')).
Proof.
  intros Hprep Hfiles Hlen Htags Hopen.
  rewrite (main_reaches_tags _ _ _ _ _ _ _ Hprep Hfiles Hlen).
  set (tags := fold_left (fun d kv => dict_set (fst kv) (snd kv) d) members []).
  exists tags. unfold after_sample.
  erewrite bind_val;
    [|unfold load_tags; rewrite Htags; simpl json_load; fold tags;
      simpl py_len; simpl lift;
      erewrite bind_val; [|reflexivity];
      erewrite bind_val; [|apply logger_add_log]; reflexivity].
  erewrite bind_val; [|apply logger_add_log].
  erewrite bind_val; [|apply logger_add_log].
  erewrite bind_val; [|apply logger_add_log].
  erewrite bind_val; [|apply (open_w_ok _ w1); [exact Hopen|reflexivity|reflexivity]].
  erewrite bind_val; [|reflexivity].
  erewrite bind_val; [|reflexivity].
  erewrite bind_val; [|apply logger_add_log].
  erewrite bind_val; [|apply logger_add_log].
  erewrite bind_val; [|apply logger_add_log].
  match goal with |- exists w', _ /\ (?m ?w0) = _ /\ _ =>
    destruct (for_each_effect env tags output_dir files w0)
      as (Hval & Hdirs & Hwritten & Hfile & _ & Herr)
  end.
  match type of Hval with fst (?run) = _ => destruct run as [c w'] eqn:Hrun end.
  simpl in Hval, Hdirs, Hwritten, Hfile, Herr. subst c.
  exists w'. split; [reflexivity|]. split.
  - erewrite bind_val; [|exact Hrun]. reflexivity.
  - split; [exact Hdirs|]. split.
    + apply Hfile. unfold is_file. simpl.
      rewrite has_key_dict_set, String.eqb_refl. reflexivity.
    + split; [|exact Herr].
      rewrite Hwritten. unfold table_text, header_line. f_equal.
      unfold written. simpl. rewrite dict_get_set_same.
      rewrite dict_get_set_same. reflexivity.
Qed.

Lemma read_file_written w p : is_file w p = true -> read_file w p = Some (written w p).
Proof. intros H. unfold read_file. now rewrite H. Qed.

(** A run that finds ten files or more, loads an object as tag document
    and can open its destination returns 1, is reported as a success and
    leaves at the destination the header followed by the line of every
    file that is not given up, in the order of discovery, whatever was
    there before. *)
Theorem complete_run_writes_the_table env ch args w output_dir w1 files members :
  prepare args (started w) = (Val output_dir, w1) ->
  fst (list_dicom_files env (path_shared_folder args) w1) = Val files ->
  10 <= List.length files ->
  env_tags env = TagsDocument (JsonObject members) ->
  fst (open_w output_dir w1) = Val tt ->
  exists tags,
    json_load (JsonObject members) = PyDict tags /\
    fst (main env ch args (started w)) = Return 1%Z /\
    fst (script env ch args w) = true /\
    read_file (snd (script env ch args w)) output_dir =
      Some (table_text env tags files).
Proof.
  intros Hprep Hfiles Hlen Htags Hopen.
  destruct (complete_run env ch args w output_dir w1 files members
              Hprep Hfiles Hlen Htags Hopen)
    as (tags & w' & Hload & Hmain & _ & Hfile & Hwritten & _).
  destruct (script_of_main env ch args w _ _ Hmain) as [Hstatus [l Hworld]].
  exists tags. split; [exact Hload|]. split; [now rewrite Hmain|].
  split; [exact Hstatus|].
  rewrite Hworld, <- Hwritten.
  change (read_file (add_log w' l) output_dir) with (read_file w' output_dir).
  now apply read_file_written.
Qed.

(** In such a run every file that is given up, because it cannot be read
    or because its data set is empty, has an error record with its path
    and the exception in the log. *)
Theorem skipped_files_are_logged env ch args w output_dir w1 files members :
  prepare args (started w) = (Val output_dir, w1) ->
  fst (list_dicom_files env (path_shared_folder args) w1) = Val files ->
  10 <= List.length files ->
  env_tags env = TagsDocument (JsonObject members) ->
  fst (open_w output_dir w1) = Val tt ->
  exists tags,
    json_load (JsonObject members) = PyDict tags /\
    forall file e,
      In file files -> file_error env tags file = Some e ->
      In (ERROR, MsgReadError file e) (log (snd (script env ch args w))).
Proof.
  intros Hprep Hfiles Hlen Htags Hopen.
  destruct (complete_run env ch args w output_dir w1 files members
              Hprep Hfiles Hlen Htags Hopen)
    as (tags & w' & Hload & Hmain & _ & _ & _ & Herr).
  destruct (script_of_main env ch args w _ _ Hmain) as [_ [l Hworld]].
  exists tags. split; [exact Hload|].
  intros file e Hin Hfe. rewrite Hworld. simpl.
  apply in_or_app. left. now apply Herr.
Qed.

(** With an empty object as tag document no file gets a line: the table
    is the header [FilePath] alone. *)
Theorem empty_tag_document_gives_header_only env ch args w output_dir w1 files :
  prepare args (started w) = (Val output_dir, w1) ->
  fst (list_dicom_files env (path_shared_folder args) w1) = Val files ->
  10 <= List.length files ->
  env_tags env = TagsDocument (JsonObject []) ->
  fst (open_w output_dir w1) = Val tt ->
  read_file (snd (script env ch args w)) output_dir = Some ("FilePath" ++ nl) /\
  forall file, In file files ->
    exists e, In (ERROR, MsgReadError file e) (log (snd (script env ch args w))).
Proof.
  intros Hprep Hfiles Hlen Htags Hopen.
  destruct (complete_run env ch args w output_dir w1 files []
              Hprep Hfiles Hlen Htags Hopen)
    as (tags & w' & Hload & Hmain & _ & Hfile & Hwritten & Herr).
  simpl in Hload. injection Hload as <-.
  destruct (script_of_main env ch args w _ _ Hmain) as [_ [l Hworld]].
  rewrite Hworld. split.
  - change (read_file (add_log w' l) output_dir) with (read_file w' output_dir).
    rewrite (read_file_written _ _ Hfile), Hwritten. f_equal.
    unfold table_text.
    assert (Hrows : forall fs, String.concat "" (map (file_row env []) fs) = "").
    { induction fs as [|f fs IH]; [reflexivity|].
      assert (Hrow : file_row env [] f = "").
      { unfold file_row. destruct (env_dcmread env f) as [[|el ds]|]; reflexivity. }
      simpl. rewrite Hrow. destruct fs; [reflexivity|exact IH]. }
    rewrite Hrows. apply app_empty_r_string.
  - intros file Hin.
    assert (Hfe : exists e, file_error env [] file = Some e).
    { unfold file_error. destruct (env_dcmread env file) as [[|el ds]|e]; eauto. }
    destruct Hfe as [e Hfe]. exists e. simpl.
    apply in_or_app. left. now apply Herr.
Qed.

(** When the tag document is missing or is not JSON, the run logs the
    error, returns 1 before the destination is opened and is reported as
    a success; the files are those from before the run. *)
Theorem tag_document_missing_or_invalid env ch args w output_dir w1 files :
  prepare args (started w) = (Val output_dir, w1) ->
  fst (list_dicom_files env (path_shared_folder args) w1) = Val files ->
  10 <= List.length files ->
  env_tags env = TagsAbsent \/ env_tags env = TagsMalformed ->
  fst (main env ch args (started w)) = Return 1%Z /\
  fst (script env ch args w) = true /\
  fs_files (snd (script env ch args w)) = fs_files w /\
  (In (ERROR, MsgTagsMissing tags_path) (log (snd (script env ch args w))) \/
   In (ERROR, MsgJsonError tags_path) (log (snd (script env ch args w)))).
Proof.
  intros Hprep Hfiles Hlen Htags.
  assert (Hmain : exists msg,
            (msg = MsgTagsMissing tags_path \/ msg = MsgJsonError tags_path) /\
            main env ch args (started w) =
            (Return 1%Z, add_log (sampled ch w1 files) [(ERROR, msg)])).
  { rewrite (main_reaches_tags _ _ _ _ _ _ _ Hprep Hfiles Hlen).
    unfold after_sample, load_tags.
    destruct Htags as [-> | ->]; eexists; (split; [|reflexivity]); auto. }
  destruct Hmain as (msg & Hmsg & Hmain).
  destruct (script_of_main env ch args w _ _ Hmain) as [Hstatus [l Hworld]].
  split; [now rewrite Hmain|]. split; [exact Hstatus|].
  rewrite Hworld. split.
  - simpl. exact (prepare_started_files _ _ _ _ Hprep).
  - simpl. destruct Hmsg as [-> | ->]; [left|right];
      apply in_or_app; left; apply in_or_app; right; now left.
Qed.

(** When the tag document is a JSON array or string, the destination is
    opened and left empty: building the header raises [AttributeError]
    and the run is reported as a failure. *)
Theorem tag_document_not_an_object env ch args w output_dir w1 files doc :
  prepare args (started w) = (Val output_dir, w1) ->
  fst (list_dicom_files env (path_shared_folder args) w1) = Val files ->
  10 <= List.length files ->
  env_tags env = TagsDocument doc ->
  (exists n, doc = JsonArray n) \/ (exists s, doc = JsonString s) ->
  fst (open_w output_dir w1) = Val tt ->
  fst (main env ch args (started w)) = Raise AttributeError /\
  fst (script env ch args w) = false /\
  read_file (snd (script env ch args w)) output_dir = Some "".
Proof.
  intros Hprep Hfiles Hlen Htags Hdoc Hopen.
  assert (Hmain : exists w', main env ch args (started w) = (Raise AttributeError, w') /\
                             is_file w' output_dir = true /\
                             written w' output_dir = "").
  { rewrite (main_reaches_tags _ _ _ _ _ _ _ Hprep Hfiles Hlen).
    unfold after_sample.
    assert (Hload : exists j n, json_load doc = j /\ py_len j = Ok n /\
                                py_keys j = Err AttributeError).
    { destruct Hdoc as [[n ->]|[s ->]]; eexists _, _; repeat split. }
    destruct Hload as (j & n & Hj & Hlen' & Hkeys).
    erewrite bind_val;
      [|unfold load_tags; rewrite Htags, Hj, Hlen'; simpl lift;
        erewrite bind_val; [|reflexivity];
        erewrite bind_val; [|apply logger_add_log]; reflexivity].
    erewrite bind_val; [|apply logger_add_log].
    erewrite bind_val; [|apply logger_add_log].
    erewrite bind_val; [|apply logger_add_log].
    erewrite bind_val; [|apply (open_w_ok _ w1); [exact Hopen|reflexivity|reflexivity]].
    rewrite Hkeys. eexists. split; [reflexivity|]. split.
    - unfold is_file. simpl. rewrite has_key_dict_set, String.eqb_refl. reflexivity.
    - unfold written. simpl. apply dict_get_set_same. }
  destruct Hmain as (w' & Hmain & Hfile & Hwritten).
  destruct (script_of_main env ch args w _ _ Hmain) as [Hstatus [l Hworld]].
  split; [now rewrite Hmain|]. split; [exact Hstatus|].
  rewrite Hworld.
  change (read_file (add_log w' l) output_dir) with (read_file w' output_dir).
  rewrite (read_file_written _ _ Hfile). now rewrite Hwritten.
Qed.

(** When the tag document is a JSON number, boolean or null, [len] raises
    [TypeError] before the destination is opened: the run is reported as
    a failure and the files are those from before the run. *)
Theorem tag_document_scalar env ch args w output_dir w1 files :
  prepare args (started w) = (Val output_dir, w1) ->
  fst (list_dicom_files env (path_shared_folder args) w1) = Val files ->
  10 <= List.length files ->
  env_tags env = TagsDocument JsonScalar ->
  fst (main env ch args (started w)) = Raise TypeError /\
  fst (script env ch args w) = false /\
  fs_files (snd (script env ch args w)) = fs_files w.
Proof.
  intros Hprep Hfiles Hlen Htags.
  assert (Hmain : main env ch args (started w) = (Raise TypeError, sampled ch w1 files)).
  { rewrite (main_reaches_tags _ _ _ _ _ _ _ Hprep Hfiles Hlen).
    unfold after_sample, load_tags. rewrite Htags. reflexivity. }
  destruct (script_of_main env ch args w _ _ Hmain) as [Hstatus [l Hworld]].
  split; [now rewrite Hmain|]. split; [exact Hstatus|].
  rewrite Hworld. simpl. exact (prepare_started_files _ _ _ _ Hprep).
Qed.



(** ** A second run *)

Lemma resolve_output_value args w w' :
  fst (resolve_output args w) = fst (resolve_output args w').
Proof.
  unfold resolve_output. destruct (output_dir_arg args) as [o|]; [|reflexivity].
  destruct (negb _); reflexivity.
Qed.

Lemma open_w_same_dirs p w w' :
  fs_dirs w' = fs_dirs w -> fst (open_w p w) = Val tt -> fst (open_w p w') = Val tt.
Proof.
  intros Hd. unfold open_w. rewrite (is_dir_same_fun w' w Hd).
  destruct (String.eqb p ""); [discriminate|].
  destruct (is_dir w p); [discriminate|].
  destruct (_ || _); [reflexivity|].
  destruct (is_file w _); discriminate.
Qed.

Lemma found_files_same_dirs env path w w' :
  fs_dirs w' = fs_dirs w -> found_files env path w' = found_files env path w.
Proof. intros Hd. unfold found_files. now rewrite (is_dir_same_fun w' w Hd). Qed.

Lemma found_files_need_the_folder env path w :
  found_files env path w <> [] -> is_dir w path = true.
Proof.
  unfold found_files. destruct (is_dir w path); [reflexivity|].
  intros H. now contradiction H.
Qed.

(** Running the script again from the world a complete run left,
    with any random generator and clock, writes the same table again. *)
Theorem second_run_rewrites_the_same_table env ch ch' args w output_dir w1 files members :
  prepare args (started w) = (Val output_dir, w1) ->
  fst (list_dicom_files env (path_shared_folder args) w1) = Val files ->
  10 <= List.length files ->
  env_tags env = TagsDocument (JsonObject members) ->
  fst (open_w output_dir w1) = Val tt ->
  fst (script env ch' args (snd (script env ch args w))) = true /\
  read_file (snd (script env ch' args (snd (script env ch args w)))) output_dir =
  read_file (snd (script env ch args w)) output_dir.
Proof.
  intros Hprep Hfiles Hlen Htags Hopen.
  destruct (complete_run env ch args w output_dir w1 files members
              Hprep Hfiles Hlen Htags Hopen)
    as (tags & w' & Hload & Hmain & Hdirs & Hfile & Hwritten & _).
  destruct (script_of_main env ch args w _ _ Hmain) as [_ [l Hworld]].
  set (w2 := snd (script env ch args w)) in *.
  assert (Hdirs2 : fs_dirs (started w2) = fs_dirs w1) by (rewrite Hworld; exact Hdirs).
  rewrite list_dicom_files_spec in Hfiles. simpl in Hfiles.
  assert (Hfound : found_files env (path_shared_folder args) w1 = files) by congruence.
  assert (Hfolder : is_dir (started w2) (path_shared_folder args) = true).
  { rewrite (is_dir_same_fun _ _ Hdirs2). apply (found_files_need_the_folder env).
    rewrite Hfound. intros ->. simpl in Hlen. lia. }
  destruct (prepare_existing args (started w2) Hfolder) as (out2 & l2 & Hprep2).
  assert (out2 = output_dir).
  { apply prepare_output in Hprep2. apply prepare_output in Hprep.
    rewrite (resolve_output_value args (started w2) (started w)) in Hprep2. congruence. }
  subst out2.
  assert (Hfiles2 : fst (list_dicom_files env (path_shared_folder args)
                           (add_log (started w2) l2)) = Val files).
  { rewrite list_dicom_files_spec. simpl. f_equal. rewrite <- Hfound.
    now apply found_files_same_dirs. }
  assert (Hopen2 : fst (open_w output_dir (add_log (started w2) l2)) = Val tt)
    by (apply (open_w_same_dirs _ w1); [exact Hdirs2|exact Hopen]).
  destruct (complete_run env ch' args w2 output_dir _ files members
              Hprep2 Hfiles2 Hlen Htags Hopen2)
    as (tags' & w'' & Hload' & Hmain' & _ & Hfile' & Hwritten' & _).
  assert (tags' = tags) by congruence. subst tags'.
  destruct (script_of_main env ch' args w2 _ _ Hmain') as [Hstatus' [l' Hworld']].
  split; [exact Hstatus'|].
  rewrite Hworld', Hworld.
  change (read_file w'' output_dir = read_file w' output_dir).
  rewrite (read_file_written _ _ Hfile), (read_file_written _ _ Hfile').
  congruence.
Qed.

(** ** The theorems on the study folder *)

Lemma prepare_study : prepare study_args (started study_world) =
                      (Val "results/study.csv", prepared_study).
Proof. vm_compute. reflexivity. Qed.

Lemma list_study corrupt ds tags :
  fst (list_dicom_files (study_env ten_files corrupt ds tags)
                        (path_shared_folder study_args) prepared_study) = Val ten_paths.
Proof. vm_compute. reflexivity. Qed.

Lemma ten_paths_length : 10 <= List.length ten_paths.
Proof. vm_compute. lia. Qed.

Lemma open_study : fst (open_w "results/study.csv" prepared_study) = Val tt.
Proof. vm_compute. reflexivity. Qed.

Lemma existing_folder_no_new_directory_witness :
  is_dir (started bare_world) (path_shared_folder study_args) = true /\
  fs_dirs (snd (main (study_env ten_files "" scan (TagsDocument two_tags))
                     first_k study_args (started bare_world))) = ["study"].
Proof.
  assert (H : is_dir (started bare_world) (path_shared_folder study_args) = true)
    by (vm_compute; reflexivity).
  split; [exact H|].
  exact (existing_folder_no_new_directory
           (study_env ten_files "" scan (TagsDocument two_tags))
           first_k study_args (started bare_world) H).
Defined.

Lemma listed_files_are_dcm_witness :
  In "study/b.dcm"
     (found_files (study_env ["notes.txt"; "b.dcm"] "" scan TagsAbsent) "study" study_world) /\
  is_dcm "study/b.dcm" = true.
Proof.
  assert (H : In "study/b.dcm"
                 (found_files (study_env ["notes.txt"; "b.dcm"] "" scan TagsAbsent)
                              "study" study_world))
    by (vm_compute; left; reflexivity).
  split; [exact H|].
  exact (proj1 (proj2 (listed_files_are_dcm
                         (study_env ["notes.txt"; "b.dcm"] "" scan TagsAbsent)
                         "study" study_world "study/b.dcm" H))).
Defined.

Lemma complete_run_writes_the_table_witness :
  let env := study_env ten_files "study/s1.dcm" scan (TagsDocument two_tags) in
  exists tags,
    json_load two_tags = PyDict tags /\
    fst (main env first_k study_args (started study_world)) = Return 1%Z /\
    fst (script env first_k study_args study_world) = true /\
    read_file (snd (script env first_k study_args study_world)) "results/study.csv" =
      Some (table_text env tags ten_paths).
Proof.
  exact (complete_run_writes_the_table
           (study_env ten_files "study/s1.dcm" scan (TagsDocument two_tags))
           first_k study_args study_world "results/study.csv" prepared_study ten_paths
           [("(0008,0060)", "Modality"); ("(0010,0010)", "PatientName")]
           prepare_study (list_study _ _ _) ten_paths_length eq_refl open_study).
Defined.

Lemma skipped_files_are_logged_witness :
  let env := study_env ten_files "study/s1.dcm" scan (TagsDocument two_tags) in
  In (ERROR, MsgReadError "study/s1.dcm" InvalidDicomError)
     (log (snd (script env first_k study_args study_world))).
Proof.
  destruct (skipped_files_are_logged
              (study_env ten_files "study/s1.dcm" scan (TagsDocument two_tags))
              first_k study_args study_world "results/study.csv" prepared_study ten_paths
              [("(0008,0060)", "Modality"); ("(0010,0010)", "PatientName")]
              prepare_study (list_study _ _ _) ten_paths_length eq_refl open_study)
    as (tags & Hload & Hlog).
  apply (Hlog "study/s1.dcm" InvalidDicomError).
  - vm_compute. right. left. reflexivity.
  - injection Hload as <-. reflexivity.
Defined.

Lemma empty_tag_document_gives_header_only_witness :
  let env := study_env ten_files "" scan (TagsDocument (JsonObject [])) in
  read_file (snd (script env first_k study_args study_world)) "results/study.csv" =
    Some ("FilePath" ++ nl).
Proof.
  exact (proj1 (empty_tag_document_gives_header_only
                  (study_env ten_files "" scan (TagsDocument (JsonObject [])))
                  first_k study_args study_world "results/study.csv" prepared_study
                  ten_paths prepare_study (list_study _ _ _) ten_paths_length
                  eq_refl open_study)).
Defined.

Lemma tag_document_missing_or_invalid_witness :
  let env := study_env ten_files "" scan TagsMalformed in
  fst (main env first_k study_args (started study_world)) = Return 1%Z /\
  fst (script env first_k study_args study_world) = true /\
  fs_files (snd (script env first_k study_args study_world)) = [].
Proof.
  destruct (tag_document_missing_or_invalid
              (study_env ten_files "" scan TagsMalformed)
              first_k study_args study_world "results/study.csv" prepared_study
              ten_paths prepare_study (list_study _ _ _) ten_paths_length
              (or_intror eq_refl))
    as (Hmain & Hstatus & Hfiles & _).
  split; [exact Hmain|]. split; [exact Hstatus|exact Hfiles].
Defined.

Lemma tag_document_not_an_object_witness :
  let env := study_env ten_files "" scan (TagsDocument (JsonArray 2)) in
  fst (main env first_k study_args (started study_world)) = Raise AttributeError /\
  fst (script env first_k study_args study_world) = false /\
  read_file (snd (script env first_k study_args study_world)) "results/study.csv" = Some "".
Proof.
  exact (tag_document_not_an_object
           (study_env ten_files "" scan (TagsDocument (JsonArray 2)))
           first_k study_args study_world "results/study.csv" prepared_study
           ten_paths (JsonArray 2) prepare_study (list_study _ _ _) ten_paths_length
           eq_refl (or_introl (ex_intro _ 2 eq_refl)) open_study).
Defined.

Lemma tag_document_scalar_witness :
  let env := study_env ten_files "" scan (TagsDocument JsonScalar) in
  fst (main env first_k study_args (started study_world)) = Raise TypeError /\
  fst (script env first_k study_args study_world) = false /\
  fs_files (snd (script env first_k study_args study_world)) = [].
Proof.
  exact (tag_document_scalar
           (study_env ten_files "" scan (TagsDocument JsonScalar))
           first_k study_args study_world "results/study.csv" prepared_study
           ten_paths prepare_study (list_study _ _ _) ten_paths_length eq_refl).
Defined.

Lemma second_run_rewrites_the_same_table_witness :
  let env := study_env ten_files "study/s1.dcm" scan (TagsDocument two_tags) in
  let first := snd (script env first_k study_args study_world) in
  fst (script env first_k study_args first) = true /\
  read_file (snd (script env first_k study_args first)) "results/study.csv" =
  read_file first "results/study.csv".
Proof.
  exact (second_run_rewrites_the_same_table
           (study_env ten_files "study/s1.dcm" scan (TagsDocument two_tags))
           first_k first_k study_args study_world "results/study.csv" prepared_study
           ten_paths [("(0008,0060)", "Modality"); ("(0010,0010)", "PatientName")]
           prepare_study (list_study _ _ _) ten_paths_length eq_refl open_study).
Defined.
